(** * A shallow embedding of the sist2-python index accessor ([sist2/__init__.py])

    The module is a thin wrapper over a SQLite index file.  Tables are modelled
    as lists of rows in storage order, a query as a function of those lists,
    and a raised Python exception as the [Err] branch of [result]. *)

From Stdlib Require Import ZArith List Ascii String Bool Lia.
From Stdlib Require Import Sorting.Permutation Sorting.Sorted.
From Stdlib Require Import Numbers.DecimalString.
From Stdlib Require Import Floats.
Import ListNotations.
Open Scope Z_scope.
Open Scope string_scope.
Open Scope list_scope.
Set Warnings "-register-all".

(** ** Python values, exceptions and JSON *)

(** A raised Python exception, identified by its class name. *)
Record exc := PyExc { exc_name : string }.

Inductive result (A : Type) : Type :=
| Ok (a : A)
| Err (e : exc).
Arguments Ok {A} a.
Arguments Err {A} e.

Definition bind {A B} (m : result A) (k : A -> result B) : result B :=
  match m with Ok a => k a | Err e => Err e end.

Notation "x <- m ;; k" := (bind m (fun x => k))
  (at level 61, m at next level, right associativity).

(** A decoded JSON value (numbers of the attribute bag are integers). *)
Inductive json : Type :=
| JNull
| JBool (b : bool)
| JNum (z : Z)
| JStr (s : string)
| JArr (l : list json)
| JObj (kvs : list (string * json)).

(** [d[key]] on a decoded JSON value. *)
Definition py_getitem (j : json) (key : string) : result json :=
  match j with
  | JObj kvs =>
      match find (fun kv => String.eqb (fst kv) key) kvs with
      | Some (_, v) => Ok v
      | None => Err (PyExc "KeyError")
      end
  | _ => Err (PyExc "TypeError")
  end.

(** Python truthiness of a JSON value. *)
Definition py_truthy (j : json) : bool :=
  match j with
  | JNull => false
  | JBool b => b
  | JNum z => negb (Z.eqb z 0)
  | JStr s => negb (String.eqb s "")
  | JArr l => match l with [] => false | _ => true end
  | JObj kvs => match kvs with [] => false | _ => true end
  end.

(** [a + b] where both operands must be [str]. *)
Definition py_str_add (a b : json) : result json :=
  match a, b with
  | JStr x, JStr y => Ok (JStr (String.append x y))
  | _, _ => Err (PyExc "TypeError")
  end.

(** [posixpath.join(a, *p)]. *)
Fixpoint py_join (path : string) (p : list string) : string :=
  match p with
  | [] => path
  | b :: rest =>
      let path' :=
        if String.prefix "/" b then b
        else if String.eqb path "" then String.append path b
        else if String.eqb (substring (String.length path - 1) 1 path) "/"
        then String.append path b
        else String.append path (String.append "/" b) in
      py_join path' rest
  end.

Definition as_str (j : json) : result string :=
  match j with JStr s => Ok s | _ => Err (PyExc "TypeError") end.

(** ** The tables of the index file *)

Record descriptor := mkDescriptor {
  desc_id : string; version_major : Z; version_minor : Z; version_patch : Z;
  root : string; desc_name : string; rewrite_url : string; timestamp : Z }.

Record version := mkVersion { ver_id : Z; ver_date : Z }.

(** A row of [document]: id, version, mtime, size and the JSON text. *)
Record doc_row := mkRow {
  r_id : Z; r_version : Z; r_mtime : Z; r_size : Z; r_json_data : string }.

(** A SQL value.  [SJson j] is the TEXT that SQLite's JSON functions print
    for the array or object [j]; it is kept as the JSON it prints. *)
Inductive sqlval : Type :=
| SNull
| SInt (z : Z)
| SText (s : string)
| SJson (j : json)
| SBlob (b : list Z).

Record tag_row := mkTag { tag_id : Z; tag_value : sqlval }.

Record kv_row := mkKv { kv_key : string; kv_value : sqlval }.

(** The index file; [None] is a table that does not exist. *)
Record db := mkDb {
  t_descriptor : option (list descriptor);
  t_version : option (list version);
  t_document : option (list doc_row);
  t_tag : option (list tag_row);
  t_kv : option (list kv_row) }.

(** [Sist2Document]: the row plus the decoded bag and the derived paths. *)
Record sist2_document := mkDoc {
  doc_id : Z; doc_version : Z; doc_mtime : Z; doc_size : Z;
  doc_json_data : json; doc_rel_path : string; doc_path : string }.

(** [Sist2Index]: the committed file, the connection's view of it (with its
    uncommitted changes), the cursor position of [document_iter] and the
    snapshots read at open time. *)
Record sist2_index := mkIndex {
  file : db;
  conn : db;
  last_id : option Z;
  idx_descriptor : descriptor;
  idx_versions : list version }.

Definition no_such_table : exc := PyExc "OperationalError".

(** ** Reading documents *)

(** A caller-supplied [where] clause: [None] is the empty string, [Some p]
    a predicate, given by the truth value of the SQL condition on each row
    (a NULL condition does not select the row). *)
Definition where_clause := option (doc_row -> bool).

(** [... ORDER BY document.id LIMIT 1]: the row of least id (the first of
    them in storage order on a tie). *)
Fixpoint min_row (rs : list doc_row) : option doc_row :=
  match rs with
  | [] => None
  | r :: rs' =>
      match min_row rs' with
      | None => Some r
      | Some m => if Z.leb (r_id r) (r_id m) then Some r else Some m
      end
  end.

Definition cond_of (w : where_clause) : doc_row -> bool :=
  match w with None => fun _ => true | Some p => p end.

(** The condition of the query issued by [_get_next_doc]. *)
Definition next_doc_cond (last : option Z) (w : where_clause) : doc_row -> bool :=
  match last, w with
  | None, _ => cond_of w
  | Some l, Some p => fun r => Z.ltb l (r_id r) && p r
  | Some l, None => fun r => Z.ltb l (r_id r)
  end.

Definition ext_suffix (ext : json) : result string :=
  if py_truthy ext then s <- py_str_add (JStr ".") ext ;; as_str s else Ok "".

Section Decode.

(** [json.loads]: [None] is a decoding error. *)
Variable json_loads : string -> option json.

(** The part of [_get_next_doc] that builds the document from the row. *)
Definition make_doc (root_path : string) (r : doc_row) : result sist2_document :=
  j <- match json_loads (r_json_data r) with
       | Some j => Ok j
       | None => Err (PyExc "JSONDecodeError")
       end ;;
  p <- py_getitem j "path" ;;
  n <- py_getitem j "name" ;;
  e <- py_getitem j "extension" ;;
  suf <- ext_suffix e ;;
  fname <- py_str_add n (JStr suf) ;;
  ps <- as_str p ;;
  fs <- as_str fname ;;
  let rel_path := py_join ps [fs] in
  let path := py_join root_path [ps; fs] in
  Ok (mkDoc (r_id r) (r_version r) (r_mtime r) (r_size r) j rel_path path).

Definition set_last_id (ix : sist2_index) (l : option Z) : sist2_index :=
  mkIndex (file ix) (conn ix) l (idx_descriptor ix) (idx_versions ix).

(** [Sist2Index._get_next_doc]. *)
Definition get_next_doc (ix : sist2_index) (w : where_clause)
  : result (option (sist2_document * sist2_index)) :=
  match t_document (conn ix) with
  | None => Err no_such_table
  | Some tbl =>
      match min_row (filter (next_doc_cond (last_id ix) w) tbl) with
      | None => Ok None
      | Some r =>
          d <- make_doc (root (idx_descriptor ix)) r ;;
          Ok (Some (d, set_last_id ix (Some (r_id r))))
      end
  end.

(** The [while doc] loop of [document_iter], drained to the end; [None]
    means that [fuel] ran out before the loop ended. *)
Fixpoint drain (fuel : nat) (ix : sist2_index) (w : where_clause)
  : option (result (list sist2_document)) :=
  match fuel with
  | O => None
  | S n =>
      match get_next_doc ix w with
      | Err e => Some (Err e)
      | Ok None => Some (Ok [])
      | Ok (Some (d, ix')) =>
          match drain n ix' w with
          | Some (Ok ds) => Some (Ok (d :: ds))
          | res => res
          end
      end
  end.

(** Fully draining [document_iter(where)]: the cursor is reset first. *)
Definition document_iter_all (ix : sist2_index) (w : where_clause)
  : option (result (list sist2_document)) :=
  let n := match t_document (conn ix) with Some tbl => List.length tbl | None => O end in
  drain (S n) (set_last_id ix None) w.

End Decode.

(** [Sist2Index.document_count]: [SELECT COUNT( * ) FROM document [WHERE ...]]. *)
Definition document_count (ix : sist2_index) (w : where_clause) : result Z :=
  match t_document (conn ix) with
  | None => Err no_such_table
  | Some tbl => Ok (Z.of_nat (List.length (filter (cond_of w) tbl)))
  end.

(** The reference the pagination is compared with: one query
    [SELECT ... WHERE <where> ORDER BY document.id] over the whole table,
    each row turned into a document in order. *)
Fixpoint insert_by_id (r : doc_row) (l : list doc_row) : list doc_row :=
  match l with
  | [] => [r]
  | y :: l' => if Z.leb (r_id r) (r_id y) then r :: l else y :: insert_by_id r l'
  end.

Fixpoint sort_by_id (l : list doc_row) : list doc_row :=
  match l with
  | [] => []
  | r :: l' => insert_by_id r (sort_by_id l')
  end.

Fixpoint map_result {A B} (f : A -> result B) (l : list A) : result (list B) :=
  match l with
  | [] => Ok []
  | x :: l' => y <- f x ;; ys <- map_result f l' ;; Ok (y :: ys)
  end.

Definition scan_ordered (json_loads : string -> option json) (root_path : string)
    (tbl : list doc_row) (w : where_clause) : result (list sist2_document) :=
  map_result (make_doc json_loads root_path) (sort_by_id (filter (cond_of w) tbl)).

(** The file name the spec describes: [name] followed by [.extension] when
    the extension is non-empty. *)
Definition spec_file_name (name ext : string) : string :=
  if String.eqb ext "" then name else String.append name (String.append "." ext).

(** ** Opening an index *)

(** [_get_descriptor]: [Sist2Descriptor( *self.cur.fetchone())]; on an
    empty table [fetchone()] is [None] and unpacking it raises [TypeError]. *)
Definition get_descriptor (f : db) : result descriptor :=
  match t_descriptor f with
  | None => Err no_such_table
  | Some [] => Err (PyExc "TypeError")
  | Some (d :: _) => Ok d
  end.

Fixpoint insert_version (v : version) (l : list version) : list version :=
  match l with
  | [] => [v]
  | y :: l' => if Z.leb (ver_id v) (ver_id y) then v :: l else y :: insert_version v l'
  end.

(** [SELECT id, date FROM version ORDER BY id]. *)
Fixpoint sort_versions (l : list version) : list version :=
  match l with [] => [] | v :: l' => insert_version v (sort_versions l') end.

(** [_get_versions]. *)
Definition get_versions (f : db) : result (list version) :=
  match t_version f with
  | None => Err no_such_table
  | Some vs => Ok (sort_versions vs)
  end.

(** [_setup_kv]: [CREATE TABLE IF NOT EXISTS kv (key TEXT PRIMARY KEY, value TEXT)].
    No transaction is open yet, so the table is created in the file at once. *)
Definition setup_kv (f : db) : db :=
  match t_kv f with
  | Some _ => f
  | None => mkDb (t_descriptor f) (t_version f) (t_document f) (t_tag f) (Some [])
  end.

(** [Sist2Index(filename)]; the file is given by its tables (a file that does
    not exist is opened by [sqlite3.connect] as a database without tables). *)
Definition open_index (f : db) : result sist2_index :=
  desc <- get_descriptor f ;;
  vers <- get_versions f ;;
  let f' := setup_kv f in
  Ok (mkIndex f' f' None desc vers).

(** ** Query parameters *)

(** The Python values [set] receives and [get] returns. *)
Inductive pyval : Type :=
| PyNone
| PyStr (s : string)
| PyInt (z : Z)
| PyBytes (b : list Z).

(** Binding a Python value as an SQL parameter: an [int] outside the signed
    64-bit range raises [OverflowError]. *)
Definition bind_param (v : pyval) : result sqlval :=
  match v with
  | PyNone => Ok SNull
  | PyStr s => Ok (SText s)
  | PyInt z =>
      if Z.leb (- 2 ^ 63) z && Z.ltb z (2 ^ 63) then Ok (SInt z)
      else Err (PyExc "OverflowError")
  | PyBytes b => Ok (SBlob b)
  end.


(** The parameters of [update_document] that [bind_param] accepts: its
    [mtime], [size] and [id] in the signed 64-bit range. *)
Definition int64_ok (z : Z) : bool := Z.leb (- 2 ^ 63) z && Z.ltb z (2 ^ 63).

Definition doc_params_ok (doc : sist2_document) : bool :=
  int64_ok (doc_mtime doc) && int64_ok (doc_size doc) && int64_ok (doc_id doc).

(** ** Writing documents *)

Definition set_conn (ix : sist2_index) (d : db) : sist2_index :=
  mkIndex (file ix) d (last_id ix) (idx_descriptor ix) (idx_versions ix).

Definition with_documents (d : db) (tbl : list doc_row) : db :=
  mkDb (t_descriptor d) (t_version d) (Some tbl) (t_tag d) (t_kv d).

Definition with_tags (d : db) (tags : list tag_row) : db :=
  mkDb (t_descriptor d) (t_version d) (t_document d) (Some tags) (t_kv d).

Definition with_kv (d : db) (kv : list kv_row) : db :=
  mkDb (t_descriptor d) (t_version d) (t_document d) (t_tag d) (Some kv).

(** The effect of [UPDATE document SET mtime=?, size=?, json_data=? WHERE id=?]
    on one row. *)
Definition update_row (json_dumps : json -> string) (doc : sist2_document)
    (r : doc_row) : doc_row :=
  if Z.eqb (r_id r) (doc_id doc)
  then mkRow (r_id r) (r_version r) (doc_mtime doc) (doc_size doc)
             (json_dumps (doc_json_data doc))
  else r.

(** [Sist2Index.update_document]; [json_dumps] is [json.dumps].  The
    statement is prepared (a missing table raises there), then its four
    parameters [doc.mtime], [doc.size], the JSON text and [doc.id] are bound
    in order: an [int] outside the signed 64-bit range raises. *)
Definition update_document (json_dumps : json -> string) (ix : sist2_index)
    (doc : sist2_document) : result sist2_index :=
  match t_document (conn ix) with
  | None => Err no_such_table
  | Some tbl =>
      _ <- bind_param (PyInt (doc_mtime doc)) ;;
      _ <- bind_param (PyInt (doc_size doc)) ;;
      _ <- bind_param (PyStr (json_dumps (doc_json_data doc))) ;;
      _ <- bind_param (PyInt (doc_id doc)) ;;
      Ok (set_conn ix (with_documents (conn ix) (map (update_row json_dumps doc) tbl)))
  end.

(** ** The tag table *)

Fixpoint json_eq_dec (a b : json) {struct a} : {a = b} + {a <> b}.
Proof.
  decide equality; [apply bool_dec | apply Z.eq_dec | apply string_dec
  | apply (list_eq_dec json_eq_dec) |].
  apply list_eq_dec. intros [k1 v1] [k2 v2].
  destruct (string_dec k1 k2), (json_eq_dec v1 v2); [left; congruence|right; congruence..].
Defined.

Definition sqlval_eq_dec (a b : sqlval) : {a = b} + {a <> b}.
Proof.
  decide equality; [apply Z.eq_dec | apply string_dec | apply json_eq_dec
  | apply (list_eq_dec Z.eq_dec)].
Defined.

Definition tag_row_eq_dec (a b : tag_row) : {a = b} + {a <> b}.
Proof. decide equality; [apply sqlval_eq_dec | apply Z.eq_dec]. Defined.

Definition malformed_json : exc := PyExc "OperationalError".

(** The SQL value of a JSON value, as [->>] and [json_each.value] give it. *)
Definition sql_of_json (j : json) : sqlval :=
  match j with
  | JNull => SNull
  | JBool b => SInt (if b then 1 else 0)
  | JNum z => SInt z
  | JStr s => SText s
  | JArr _ | JObj _ => SJson j
  end.

(** The [value] column of [json_each] over a parsed JSON value. *)
Definition json_each_values (j : json) : list sqlval :=
  match j with
  | JArr l => map sql_of_json l
  | JObj kvs => map (fun kv => sql_of_json (snd kv)) kvs
  | _ => [sql_of_json j]
  end.

Section SqliteJson.

(** SQLite's JSON parser; [None] is malformed JSON. *)
Variable json_parse : string -> option json.

(** [json_each(v)] for an SQL value [v]. *)
Definition json_each (v : sqlval) : result (list sqlval) :=
  match v with
  | SNull => Ok []
  | SInt z => Ok [SInt z]
  | SJson j => Ok (json_each_values j)
  | SText s =>
      match json_parse s with
      | Some j => Ok (json_each_values j)
      | None => Err malformed_json
      end
  | SBlob _ => Err malformed_json
  end.

(** [json_data ->> 'tag']. *)
Definition json_tag (text : string) : result sqlval :=
  match json_parse text with
  | None => Err malformed_json
  | Some (JObj kvs) =>
      match find (fun kv => String.eqb (fst kv) "tag") kvs with
      | Some (_, v) => Ok (sql_of_json v)
      | None => Ok SNull
      end
  | Some _ => Ok SNull
  end.

(** The rows [SELECT document.id, json_each.value FROM document,
    json_each(document.json_data->>'tag')] gives for one document. *)
Definition doc_tag_rows (r : doc_row) : result (list tag_row) :=
  v <- json_tag (r_json_data r) ;;
  vs <- json_each v ;;
  Ok (map (mkTag (r_id r)) vs).

(** [REPLACE INTO tag] of one row.  Modelled from the spec: the tag table
    (created by the index producer) keeps one row per (document id, tag
    value) pair, so a row equal to the new one is replaced. *)
Definition tag_replace (tags : list tag_row) (t : tag_row) : list tag_row :=
  filter (fun u => if tag_row_eq_dec u t then false else true) tags ++ [t].

(** [Sist2Index.sync_tag_table]: [DELETE FROM tag], then the [REPLACE INTO
    tag SELECT ...]; a failing statement leaves the effects of the earlier
    one in place, so the result pairs the new state with the outcome. *)
Definition sync_tag_table (ix : sist2_index) : sist2_index * result unit :=
  match t_tag (conn ix) with
  | None => (ix, Err no_such_table)
  | Some _ =>
      let ix1 := set_conn ix (with_tags (conn ix) []) in
      match t_document (conn ix) with
      | None => (ix1, Err no_such_table)
      | Some docs =>
          match map_result doc_tag_rows docs with
          | Err e => (ix1, Err e)
          | Ok rowss => (set_conn ix (with_tags (conn ix) (fold_left tag_replace (List.concat rowss) [])),
                         Ok tt)
          end
      end
  end.

End SqliteJson.

(** ** The key-value table *)

(** The decimal text of an integer, as [str(z)] and SQLite's [%lld] print it. *)
Definition decimal (z : Z) : string := NilZero.string_of_int (Z.to_int z).

(** Storing into a column of TEXT affinity: a number becomes its text. *)
Definition text_affinity (v : sqlval) : sqlval :=
  match v with
  | SInt z => SText (decimal z)
  | _ => v
  end.

Section KeyValue.

(** The text SQLite holds for a JSON array or object. *)
Variable json_text : json -> string.

(** A column value as [sqlite3] returns it to Python. *)
Definition py_of_sql (v : sqlval) : pyval :=
  match v with
  | SNull => PyNone
  | SInt z => PyInt z
  | SText s => PyStr s
  | SJson j => PyStr (json_text j)
  | SBlob b => PyBytes b
  end.

(** [Sist2Index.get]: [SELECT value from kv WHERE key=?]; the row tuple is
    always truthy, so a stored row gives its value. *)
Definition kv_get (ix : sist2_index) (key : string) (default : pyval) : result pyval :=
  match t_kv (conn ix) with
  | None => Err no_such_table
  | Some kv =>
      match find (fun r => String.eqb (kv_key r) key) kv with
      | Some r => Ok (py_of_sql (kv_value r))
      | None => Ok default
      end
  end.

End KeyValue.

(** [Sist2Index.set]: [REPLACE INTO kv (key, value) VALUES (?,?)]; the row
    of the same key (the primary key) is deleted and the new one added. *)
Definition kv_set (ix : sist2_index) (key : string) (value : pyval) : result sist2_index :=
  match t_kv (conn ix) with
  | None => Err no_such_table
  | Some kv =>
      v <- bind_param value ;;
      Ok (set_conn ix (with_kv (conn ix)
            (filter (fun r => negb (String.eqb (kv_key r) key)) kv
             ++ [mkKv key (text_affinity v)])))
  end.

(** [Sist2Index.commit]: the connection's view becomes the file. *)
Definition commit (ix : sist2_index) : sist2_index :=
  mkIndex (conn ix) (conn ix) (last_id ix) (idx_descriptor ix) (idx_versions ix).

(** ** [serialize_float_array] *)

(** C's [(float)x]: rounding a double to the nearest binary32, ties to even;
    a finite value beyond the binary32 range becomes an infinity. *)
Definition to_binary32 (x : spec_float) : spec_float :=
  match x with
  | S754_finite s m e => binary_normalize 24 128 (if s then Z.neg m else Z.pos m) e s
  | _ => x
  end.

(** The IEEE 754 bit pattern of a binary32 value.  NaN payloads are not
    modelled: a NaN is the default quiet NaN. *)
Definition bits_of_binary32 (x : spec_float) : Z :=
  match x with
  | S754_zero s => if s then 2 ^ 31 else 0
  | S754_infinity s => (if s then 2 ^ 31 else 0) + 255 * 2 ^ 23
  | S754_nan => 2143289344
  | S754_finite s m e =>
      (if s then 2 ^ 31 else 0)
      + (if Z.ltb (Z.pos m) (2 ^ 23) then Z.pos m
         else (e + 150) * 2 ^ 23 + (Z.pos m - 2 ^ 23))
  end.

(** The four bytes of a 32-bit word in the platform's byte order. *)
Definition bytes_of_word (little : bool) (w : Z) : list Z :=
  let le := [Z.land w 255; Z.land (Z.shiftr w 8) 255;
             Z.land (Z.shiftr w 16) 255; Z.land (Z.shiftr w 24) 255] in
  if little then le else rev le.

(** [struct.pack("f", x)] (native mode). *)
Definition pack_f (little : bool) (x : float) : list Z :=
  bytes_of_word little (bits_of_binary32 (to_binary32 (Prim2SF x))).

(** [serialize_float_array(array)]: [b''.join(struct.pack("f", x) for x in array)]. *)
Definition serialize_float_array (little : bool) (xs : list float) : list Z :=
  List.concat (map (pack_f little) xs).

(** Decoding, as [struct.unpack("f", ...)] does: the word of four bytes,
    its binary32 value and that value as a double. *)
Definition word_of_bytes (little : bool) (bs : list Z) : Z :=
  fold_right (fun b acc => b + 256 * acc) 0 (if little then bs else rev bs).

Definition binary32_of_bits (b : Z) : spec_float :=
  let s := Z.testbit b 31 in
  let ex := Z.land (Z.shiftr b 23) 255 in
  let mant := Z.land b (2 ^ 23 - 1) in
  if Z.eqb ex 255 then (if Z.eqb mant 0 then S754_infinity s else S754_nan)
  else if Z.eqb ex 0 then
    (if Z.eqb mant 0 then S754_zero s else S754_finite s (Z.to_pos mant) (-149))
  else S754_finite s (Z.to_pos (mant + 2 ^ 23)) (ex - 150).

Definition to_binary64 (x : spec_float) : spec_float :=
  match x with
  | S754_finite s m e => binary_normalize 53 1024 (if s then Z.neg m else Z.pos m) e s
  | _ => x
  end.

Definition unpack_f (little : bool) (bs : list Z) : float :=
  SF2Prim (to_binary64 (binary32_of_bits (word_of_bytes little bs))).

(** [struct.unpack("%df" % n, data)] for [data] of [4 * n] bytes. *)
Fixpoint unpack_floats (little : bool) (bs : list Z) : list float :=
  match bs with
  | b0 :: b1 :: b2 :: b3 :: rest => unpack_f little [b0; b1; b2; b3] :: unpack_floats little rest
  | _ => []
  end.

(** ** [print_progress] *)

Definition newline : string := String "010"%char EmptyString.
Definition dquote : string := String "034"%char EmptyString.

Fixpoint has_newline (s : string) : bool :=
  match s with
  | EmptyString => false
  | String c s' => Ascii.eqb c "010"%char || has_newline s'
  end.

(** How [sys.stdout] buffers: unbuffered ([python -u]), line buffered (a
    terminal) or block buffered with a buffer of [size] bytes (a pipe or a
    file, as when a supervising process reads the output). *)
Inductive buffering : Type :=
| Unbuffered
| LineBuffered
| BlockBuffered (size : nat).

(** [sys.stdout]: the text still in its buffer and the text written out. *)
Record stdout := mkStdout {
  out_mode : buffering;
  out_pending : string;
  out_written : string }.

Definition flush (o : stdout) : stdout :=
  mkStdout (out_mode o) "" (String.append (out_written o) (out_pending o)).

Definition stdout_write (o : stdout) (s : string) : stdout :=
  let o' := mkStdout (out_mode o) (String.append (out_pending o) s) (out_written o) in
  match out_mode o with
  | Unbuffered => flush o'
  | LineBuffered => if has_newline s then flush o' else o'
  | BlockBuffered size =>
      if Nat.leb size (String.length (out_pending o')) then flush o' else o'
  end.

(** [print(s)]: the text, then the end ["\n"]; no [flush=True]. *)
Definition py_print (o : stdout) (s : string) : stdout :=
  stdout_write (stdout_write o s) newline.

Definition json_key (k : string) : string :=
  String.append dquote (String.append k (String.append dquote ": ")).

(** [json.dumps({"done": done, "count": count, "waiting": waiting})]. *)
Definition progress_json (done count : Z) (waiting : bool) : string :=
  String.append "{"
  (String.append (json_key "done") (String.append (decimal done)
  (String.append ", " (String.append (json_key "count") (String.append (decimal count)
  (String.append ", " (String.append (json_key "waiting")
  (String.append (if waiting then "true" else "false") "}")))))))).

(** [print_progress(done=0, count=0, waiting=False)]; an omitted argument is
    [None].  It returns [None]. *)
Definition print_progress (o : stdout) (done count : option Z) (waiting : option bool)
  : pyval * stdout :=
  let done := match done with Some d => d | None => 0 end in
  let count := match count with Some c => c | None => 0 end in
  let waiting := match waiting with Some w => w | None => false end in
  (PyNone, py_print o (String.append "$PROGRESS " (progress_json done count waiting))).

(** ** Sample data used by the concrete checks *)

(** A [json_data] parser for the tag samples: the tags are the text and ["x"]. *)
Definition sample_tag_parse (s : string) : option json :=
  Some (JObj [("tag", JArr [JStr s; JStr "x"])]).

(** A [json.loads] for the samples: every row's text is its [path]. *)
Definition sample_loads (s : string) : option json :=
  Some (JObj [("path", JStr s); ("name", JStr "file"); ("extension", JStr "txt")]).

Definition sample_descriptor : descriptor :=
  mkDescriptor "idx" 3 0 0 "/data" "sample" "" 0.

Definition sample_row (i : Z) : doc_row := mkRow i 1 100 (10 * i) "a/b".

Definition sample_db (rows : list doc_row) : db :=
  mkDb (Some [sample_descriptor]) (Some []) (Some rows) (Some []) (Some []).

Definition sample_index (rows : list doc_row) : sist2_index :=
  mkIndex (sample_db rows) (sample_db rows) None sample_descriptor [].

(** [n] rows stored in decreasing id order. *)
Fixpoint rows_desc (n : nat) : list doc_row :=
  match n with O => [] | S k => sample_row (Z.of_nat n) :: rows_desc k end.

(** A file whose descriptor table exists but has no row. *)
Definition empty_descriptor_file : db :=
  mkDb (Some []) (Some []) (Some []) (Some []) None.

(** A file whose version table is stored out of id order and that has no
    [kv] table yet. *)
Definition sample_versions_db : db :=
  mkDb (Some [sample_descriptor]) (Some [mkVersion 2 200; mkVersion 1 100])
       (Some []) (Some []) None.

(** A [json.loads] whose bags have a [null] extension. *)
Definition sample_loads_noext (s : string) : option json :=
  Some (JObj [("path", JStr s); ("name", JStr "README"); ("extension", JNull)]).

(** A [json.loads] that rejects the text ["bad"]. *)
Definition sample_loads_bad (s : string) : option json :=
  if String.eqb s "bad" then None else sample_loads s.

(** SQLite's parser on the tag samples, rejecting the text ["bad"]. *)
Definition sample_bad_tag_parse (s : string) : option json :=
  if String.eqb s "bad" then None else sample_tag_parse s.

(** Every bag has the string tag ["foo"], which is not JSON text. *)
Definition sample_string_tag_parse (s : string) : option json :=
  if String.eqb s "foo" then None else Some (JObj [("tag", JStr "foo")]).

(** The bag [sample_loads] reads from the text ["c/d"]. *)
Definition sample_bag_cd : json :=
  JObj [("path", JStr "c/d"); ("name", JStr "file"); ("extension", JStr "txt")].

(* ================================================================== *)
(** * Proofs *)

(** ** Keyset pagination *)

Definition id_le (a b : doc_row) : Prop := r_id a <= r_id b.
Definition id_lt (a b : doc_row) : Prop := r_id a < r_id b.

Lemma min_row_sort (l : list doc_row) : min_row l = hd_error (sort_by_id l).
Proof.
  induction l as [|r l IH]; simpl; [reflexivity|].
  rewrite IH. destruct (sort_by_id l) as [|y s]; simpl; [reflexivity|].
  destruct (Z.leb (r_id r) (r_id y)); reflexivity.
Qed.

Lemma insert_by_id_perm (r : doc_row) (l : list doc_row) :
  Permutation (insert_by_id r l) (r :: l).
Proof.
  induction l as [|y l IH]; simpl; [reflexivity|].
  destruct (Z.leb (r_id r) (r_id y)); [reflexivity|].
  rewrite IH. apply perm_swap.
Qed.

Lemma sort_by_id_perm (l : list doc_row) : Permutation (sort_by_id l) l.
Proof.
  induction l as [|r l IH]; simpl; [reflexivity|].
  rewrite insert_by_id_perm. now apply perm_skip.
Qed.

Lemma insert_by_id_sorted (r : doc_row) (l : list doc_row) :
  StronglySorted id_le l -> StronglySorted id_le (insert_by_id r l).
Proof.
  induction 1 as [|y l Hl IH Hy]; simpl.
  - repeat constructor.
  - destruct (Z.leb (r_id r) (r_id y)) eqn:E.
    + apply Z.leb_le in E. constructor; [now constructor|].
      constructor; [exact E|]. eapply Forall_impl; [|exact Hy].
      unfold id_le; intros; lia.
    + apply Z.leb_gt in E. constructor; [exact IH|].
      apply Forall_forall. intros x Hx.
      apply (Permutation_in _ (insert_by_id_perm r l)) in Hx.
      destruct Hx as [<-|Hx]; [unfold id_le; lia|].
      now apply (proj1 (Forall_forall _ _) Hy).
Qed.

Lemma sort_by_id_sorted (l : list doc_row) : StronglySorted id_le (sort_by_id l).
Proof.
  induction l; simpl; [constructor|]. now apply insert_by_id_sorted.
Qed.

Lemma insert_by_id_front (r : doc_row) (l : list doc_row) :
  Forall (id_le r) l -> insert_by_id r l = r :: l.
Proof.
  destruct l as [|y l]; simpl; [reflexivity|]. intros H.
  inversion H as [|? ? Hy _]; subst. unfold id_le in Hy.
  now rewrite (proj2 (Z.leb_le _ _) Hy).
Qed.

Lemma filter_cons_eq {A} (p : A -> bool) (x : A) (l : list A) :
  filter p (x :: l) = if p x then x :: filter p l else filter p l.
Proof. reflexivity. Qed.

Lemma filter_insert_by_id (p : doc_row -> bool) (r : doc_row) (l : list doc_row) :
  StronglySorted id_le l ->
  filter p (insert_by_id r l) = if p r then insert_by_id r (filter p l) else filter p l.
Proof.
  induction 1 as [|y l Hl IH Hy].
  - simpl. destruct (p r); reflexivity.
  - cbn [insert_by_id]. destruct (Z.leb (r_id r) (r_id y)) eqn:E.
    + apply Z.leb_le in E. rewrite (filter_cons_eq p r (y :: l)).
      destruct (p r) eqn:Pr; [|reflexivity].
      symmetry. apply insert_by_id_front.
      apply Forall_forall. intros x Hx. apply filter_In in Hx as [Hx _].
      destruct Hx as [<-|Hx]; [exact E|].
      pose proof (proj1 (Forall_forall _ _) Hy x Hx). unfold id_le in *; lia.
    + simpl. rewrite IH.
      destruct (p y) eqn:Py, (p r) eqn:Pr; simpl; try rewrite E; reflexivity.
Qed.

Lemma sort_by_id_filter (p : doc_row -> bool) (l : list doc_row) :
  sort_by_id (filter p l) = filter p (sort_by_id l).
Proof.
  induction l as [|r l IH]; simpl; [reflexivity|].
  rewrite filter_insert_by_id by apply sort_by_id_sorted.
  destruct (p r); simpl; now rewrite IH.
Qed.

Lemma filter_andb (p q : doc_row -> bool) (l : list doc_row) :
  filter (fun r => p r && q r) l = filter p (filter q l).
Proof.
  induction l as [|r l IH]; simpl; [reflexivity|].
  destruct (p r) eqn:P, (q r) eqn:Q; simpl; rewrite ?P; now rewrite IH.
Qed.

Lemma filter_all_true {A} (l : list A) : filter (fun _ => true) l = l.
Proof. induction l; simpl; congruence. Qed.

Lemma strongly_sorted_strict (l : list doc_row) :
  StronglySorted id_le l -> NoDup (map r_id l) -> StronglySorted id_lt l.
Proof.
  induction 1 as [|a l Hl IH Ha]; simpl; intros Hnd; constructor.
  - inversion Hnd; auto.
  - inversion Hnd as [|? ? Hnin _]; subst.
    apply Forall_forall. intros x Hx.
    pose proof (proj1 (Forall_forall _ _) Ha x Hx) as Hle. unfold id_le, id_lt in *.
    assert (r_id a <> r_id x) by (intros E; apply Hnin; rewrite E; now apply in_map).
    lia.
Qed.

Lemma nodup_ids_filter (keep : doc_row -> bool) (rows : list doc_row) :
  NoDup (map r_id rows) -> NoDup (map r_id (filter keep rows)).
Proof.
  induction rows as [|r rows IH]; simpl; intros Hnd; [constructor|].
  apply NoDup_cons_iff in Hnd as [Hfresh Hnd].
  destruct (keep r); simpl; [|auto].
  apply NoDup_cons; [|auto].
  intros Hin. apply Hfresh.
  apply in_map_iff in Hin as [r' [Heq Hin]]. apply filter_In in Hin.
  rewrite <- Heq. apply in_map, Hin.
Qed.

Ltac bind_ok H :=
  repeat match type of H with
         | bind ?m _ = _ => destruct m eqn:?; simpl in H; [|discriminate]
         end.

Lemma map_result_forall2 {A B} (f : A -> result B) :
  forall xs ys, map_result f xs = Ok ys -> Forall2 (fun x y => f x = Ok y) xs ys.
Proof.
  induction xs as [|x xs IH]; simpl; intros ys H.
  - inversion H; constructor.
  - bind_ok H. inversion H; subst. constructor; auto.
Qed.

Lemma make_doc_id (json_loads : string -> option json) (root_path : string) r d :
  make_doc json_loads root_path r = Ok d -> doc_id d = r_id r.
Proof.
  unfold make_doc. intros H. bind_ok H. now inversion H.
Qed.

Lemma map_result_ids (json_loads : string -> option json) (root_path : string) :
  forall rows docs, map_result (make_doc json_loads root_path) rows = Ok docs ->
  map doc_id docs = map r_id rows.
Proof.
  intros rows docs H. apply map_result_forall2 in H.
  induction H as [|r d rows docs Hd _ IH]; simpl; [reflexivity|].
  f_equal; [eapply make_doc_id; eauto|exact IH].
Qed.

Section Pagination.

Variable json_loads : string -> option json.
Variable tbl : list doc_row.
Variable w : where_clause.
Hypothesis Hnodup : NoDup (map r_id tbl).

(** The rows of the ordered scan, and the part of them after a cursor. *)
Let S := sort_by_id (filter (cond_of w) tbl).

Definition remaining (last : option Z) : list doc_row :=
  match last with
  | None => S
  | Some l => filter (fun r => Z.ltb l (r_id r)) S
  end.

Lemma scan_rows_strict : StronglySorted id_lt S.
Proof.
  apply strongly_sorted_strict; [apply sort_by_id_sorted|].
  eapply Permutation_NoDup; [apply Permutation_map; symmetry; apply sort_by_id_perm|].
  now apply nodup_ids_filter.
Qed.

Lemma query_remaining (last : option Z) :
  sort_by_id (filter (next_doc_cond last w) tbl) = remaining last.
Proof.
  unfold remaining, S. destruct last as [l|]; [|reflexivity].
  destruct w as [p|]; simpl.
  - now rewrite filter_andb, sort_by_id_filter.
  - rewrite filter_all_true. now rewrite sort_by_id_filter.
Qed.

Lemma filter_after_strict (l : Z) (rows : list doc_row) (r : doc_row) (rest : list doc_row) :
  StronglySorted id_lt rows ->
  filter (fun x => Z.ltb l (r_id x)) rows = r :: rest ->
  filter (fun x => Z.ltb (r_id r) (r_id x)) rows = rest.
Proof.
  intros Hs. revert r rest. induction Hs as [|x rows Hs IH Hx]; simpl; intros r rest H;
    [discriminate|].
  assert (Hall : forall y, In y rows -> r_id x < r_id y)
    by (intros y Hy; exact (proj1 (Forall_forall _ _) Hx y Hy)).
  destruct (Z.ltb l (r_id x)) eqn:E.
  - inversion H; subst. rewrite Z.ltb_irrefl.
    apply Z.ltb_lt in E.
    rewrite forallb_filter_id.
    + symmetry. apply forallb_filter_id.
      apply forallb_forall. intros y Hy. apply Z.ltb_lt. specialize (Hall y Hy). lia.
    + apply forallb_forall. intros y Hy. apply Z.ltb_lt. now apply Hall.
  - assert (Hin : In r rows).
    { assert (In r (filter (fun x => Z.ltb l (r_id x)) rows)) by (rewrite H; now left).
      now apply filter_In in H0. }
    specialize (Hall r Hin).
    rewrite (proj2 (Z.ltb_ge (r_id r) (r_id x))) by lia.
    now apply IH.
Qed.

Lemma remaining_step (last : option Z) (r : doc_row) (rest : list doc_row) :
  remaining last = r :: rest -> remaining (Some (r_id r)) = rest.
Proof.
  pose proof scan_rows_strict as Hs.
  destruct last as [l|]; simpl; intros H.
  - now apply (filter_after_strict l S r rest).
  - fold S in H. rewrite H in Hs |- *. simpl. rewrite Z.ltb_irrefl.
    inversion Hs; subst.
    apply forallb_filter_id, forallb_forall.
    intros y Hy. apply Z.ltb_lt. exact (proj1 (Forall_forall _ _) H3 y Hy).
Qed.

Lemma drain_remaining (rest : list doc_row) :
  forall fuel ix,
  t_document (conn ix) = Some tbl ->
  remaining (last_id ix) = rest ->
  (List.length rest < fuel)%nat ->
  drain json_loads fuel ix w
  = Some (map_result (make_doc json_loads (root (idx_descriptor ix))) rest).
Proof.
  induction rest as [|r rest IH]; intros [|fuel] ix Hdoc Hrem Hfuel; simpl in Hfuel;
    try lia; simpl; unfold get_next_doc; rewrite Hdoc, min_row_sort, query_remaining, Hrem;
    simpl; [reflexivity|].
  destruct (make_doc json_loads (root (idx_descriptor ix)) r) as [d|e]; simpl; [|reflexivity].
  assert (Hrem' : remaining (Some (r_id r)) = rest)
    by now apply remaining_step with (last := last_id ix).
  rewrite (IH fuel (set_last_id ix (Some (r_id r))) Hdoc Hrem' ltac:(lia)); simpl.
  destruct (map_result _ rest); reflexivity.
Qed.

End Pagination.

Lemma string_append_empty (s : string) : String.append s "" = s.
Proof. induction s; simpl; congruence. Qed.

Lemma strict_ids (l : list doc_row) :
  StronglySorted id_lt l -> StronglySorted Z.lt (map r_id l).
Proof.
  induction 1 as [|a l _ IH Ha]; simpl; constructor; [exact IH|].
  apply Forall_map. exact Ha.
Qed.

Lemma map_result_total {A B} (f : A -> result B) (xs : list A) :
  Forall (fun x => exists y, f x = Ok y) xs -> exists ys, map_result f xs = Ok ys.
Proof.
  induction 1 as [|x xs [y Hy] _ [ys IH]]; simpl; [now exists []|].
  rewrite Hy, IH. now exists (y :: ys).
Qed.

Lemma forall_perm {A} (P : A -> Prop) (l l' : list A) :
  Permutation l l' -> Forall P l' -> Forall P l.
Proof.
  intros Hp H. apply Forall_forall. intros x Hx.
  apply (proj1 (Forall_forall _ _) H). now apply (Permutation_in _ Hp).
Qed.

Lemma document_iter_all_scan (json_loads : string -> option json)
    (ix : sist2_index) (tbl : list doc_row) (w : where_clause) :
  t_document (conn ix) = Some tbl -> NoDup (map r_id tbl) ->
  document_iter_all json_loads ix w
  = Some (scan_ordered json_loads (root (idx_descriptor ix)) tbl w).
Proof.
  intros Hdoc Hnd. unfold document_iter_all. rewrite Hdoc.
  apply (drain_remaining json_loads tbl w Hnd (remaining tbl w None)); auto.
  unfold remaining.
  pose proof (Permutation_length (sort_by_id_perm (filter (cond_of w) tbl))).
  pose proof (filter_length_le (cond_of w) tbl). lia.
Qed.

Lemma scan_ordered_ids (json_loads : string -> option json) (root_path : string)
    (tbl : list doc_row) (w : where_clause) docs :
  NoDup (map r_id tbl) ->
  scan_ordered json_loads root_path tbl w = Ok docs ->
  StronglySorted Z.lt (map doc_id docs)
  /\ Permutation (map doc_id docs) (map r_id (filter (cond_of w) tbl))
  /\ List.length docs = List.length (filter (cond_of w) tbl).
Proof.
  intros Hnd H. unfold scan_ordered in H.
  pose proof (map_result_ids _ _ _ _ H) as Hids.
  pose proof (Forall2_length (map_result_forall2 _ _ _ H)) as Hlen.
  rewrite Hids. split; [|split].
  - apply strict_ids. exact (scan_rows_strict tbl w Hnd).
  - apply Permutation_map, sort_by_id_perm.
  - rewrite <- Hlen. apply Permutation_length, sort_by_id_perm.
Qed.

(** C1: with an empty [where], draining [document_iter] terminates and yields
    exactly what one scan of the whole table ordered by id yields; the ids
    of the yielded documents are strictly increasing and are the ids of the
    table, each once; and when every row decodes, the scan (so the
    iteration) yields a document for every row. *)
Theorem document_iter_keyset_scan (json_loads : string -> option json)
    (ix : sist2_index) (tbl : list doc_row) :
  t_document (conn ix) = Some tbl ->
  NoDup (map r_id tbl) ->
  document_iter_all json_loads ix None
  = Some (scan_ordered json_loads (root (idx_descriptor ix)) tbl None)
  /\ (forall docs,
        scan_ordered json_loads (root (idx_descriptor ix)) tbl None = Ok docs ->
        StronglySorted Z.lt (map doc_id docs)
        /\ Permutation (map doc_id docs) (map r_id tbl))
  /\ (Forall (fun r => exists d, make_doc json_loads (root (idx_descriptor ix)) r = Ok d) tbl ->
      exists docs,
        scan_ordered json_loads (root (idx_descriptor ix)) tbl None = Ok docs).
Proof.
  intros Hdoc Hnd. split; [|split].
  - now apply document_iter_all_scan.
  - intros docs H. destruct (scan_ordered_ids _ _ _ _ _ Hnd H) as [Hs [Hp _]].
    simpl in Hp. rewrite filter_all_true in Hp. now split.
  - intros Hwf. apply map_result_total. simpl. rewrite filter_all_true.
    eapply forall_perm; [apply sort_by_id_perm|exact Hwf].
Qed.

Lemma document_iter_keyset_scan_witness :
  t_document (conn (sample_index [sample_row 3; sample_row 1; sample_row 2]))
    = Some [sample_row 3; sample_row 1; sample_row 2]
  /\ NoDup (map r_id [sample_row 3; sample_row 1; sample_row 2])
  /\ document_iter_all sample_loads (sample_index [sample_row 3; sample_row 1; sample_row 2]) None
     = Some (scan_ordered sample_loads "/data" [sample_row 3; sample_row 1; sample_row 2] None).
Proof.
  assert (Hnd : NoDup (map r_id [sample_row 3; sample_row 1; sample_row 2])).
  { simpl. repeat constructor; simpl; intuition discriminate. }
  split; [reflexivity|split; [exact Hnd|]].
  exact (proj1 (document_iter_keyset_scan sample_loads
                  (sample_index [sample_row 3; sample_row 1; sample_row 2])
                  [sample_row 3; sample_row 1; sample_row 2] eq_refl Hnd)).
Defined.

(** The iteration over 1000 rows stored in decreasing id order yields the
    ids 1 .. 1000 in increasing order. *)
Example document_iter_1000_rows :
  match document_iter_all sample_loads (sample_index (rows_desc 1000)) None with
  | Some (Ok docs) => map doc_id docs = map (fun i => Z.of_nat (S i)) (seq 0 1000)
  | _ => False
  end.
Proof. vm_compute. reflexivity. Qed.

(** C2: for every [where] clause, draining [document_iter] terminates, and
    when it ends normally the number of documents it produced is
    [document_count] of the same clause; when every row decodes it does end
    normally. *)
Theorem document_count_eq_iter (json_loads : string -> option json)
    (ix : sist2_index) (tbl : list doc_row) (w : where_clause) :
  t_document (conn ix) = Some tbl ->
  NoDup (map r_id tbl) ->
  (exists res, document_iter_all json_loads ix w = Some res)
  /\ (forall docs, document_iter_all json_loads ix w = Some (Ok docs) ->
        document_count ix w = Ok (Z.of_nat (List.length docs)))
  /\ (Forall (fun r => exists d, make_doc json_loads (root (idx_descriptor ix)) r = Ok d) tbl ->
      exists docs, document_iter_all json_loads ix w = Some (Ok docs)).
Proof.
  intros Hdoc Hnd. rewrite (document_iter_all_scan json_loads ix tbl w Hdoc Hnd).
  split; [|split].
  - eexists; reflexivity.
  - intros docs H. injection H as H.
    destruct (scan_ordered_ids _ _ _ _ _ Hnd H) as [_ [_ Hlen]].
    unfold document_count. now rewrite Hdoc, Hlen.
  - intros Hwf. destruct (map_result_total (make_doc json_loads (root (idx_descriptor ix)))
                            (sort_by_id (filter (cond_of w) tbl))) as [docs Hd].
    + eapply forall_perm; [apply sort_by_id_perm|].
      apply Forall_forall. intros x Hx. apply filter_In in Hx as [Hx _].
      exact (proj1 (Forall_forall _ _) Hwf x Hx).
    + exists docs. unfold scan_ordered. now rewrite Hd.
Qed.

Lemma document_count_eq_iter_witness :
  t_document (conn (sample_index [sample_row 3; sample_row 1; sample_row 2]))
    = Some [sample_row 3; sample_row 1; sample_row 2]
  /\ NoDup (map r_id [sample_row 3; sample_row 1; sample_row 2])
  /\ (forall docs,
        document_iter_all sample_loads (sample_index [sample_row 3; sample_row 1; sample_row 2])
          (Some (fun r => Z.ltb 15 (r_size r))) = Some (Ok docs) ->
        document_count (sample_index [sample_row 3; sample_row 1; sample_row 2])
          (Some (fun r => Z.ltb 15 (r_size r))) = Ok (Z.of_nat (List.length docs))).
Proof.
  assert (Hnd : NoDup (map r_id [sample_row 3; sample_row 1; sample_row 2])).
  { simpl. repeat constructor; simpl; intuition discriminate. }
  split; [reflexivity|split; [exact Hnd|]].
  exact (proj1 (proj2 (document_count_eq_iter sample_loads
                  (sample_index [sample_row 3; sample_row 1; sample_row 2])
                  [sample_row 3; sample_row 1; sample_row 2]
                  (Some (fun r => Z.ltb 15 (r_size r))) eq_refl Hnd))).
Defined.

(** ** Derived paths *)

(** C3: when the row fetched by [_get_next_doc] has a bag with string
    [path], [name] and [extension], the yielded document's [rel_path] is
    [os.path.join(path, file_name)] and its [path] is
    [os.path.join(root, path, file_name)], where [file_name] is [name]
    followed by [.extension] only when the extension is non-empty; on the
    spec's example this gives [a/b/file.txt] and [/data/a/b/file.txt], and
    [a/b/file], [/data/a/b/file] with an empty extension. *)
Theorem get_next_doc_paths (json_loads : string -> option json)
    (ix : sist2_index) (w : where_clause) (tbl : list doc_row) (r : doc_row)
    (j : json) (p n e : string) :
  t_document (conn ix) = Some tbl ->
  min_row (filter (next_doc_cond (last_id ix) w) tbl) = Some r ->
  json_loads (r_json_data r) = Some j ->
  py_getitem j "path" = Ok (JStr p) ->
  py_getitem j "name" = Ok (JStr n) ->
  py_getitem j "extension" = Ok (JStr e) ->
  get_next_doc json_loads ix w
  = Ok (Some (mkDoc (r_id r) (r_version r) (r_mtime r) (r_size r) j
                (py_join p [spec_file_name n e])
                (py_join (root (idx_descriptor ix)) [p; spec_file_name n e]),
              set_last_id ix (Some (r_id r))))
  /\ py_join "a/b" [spec_file_name "file" "txt"] = "a/b/file.txt"
  /\ py_join "/data" ["a/b"; spec_file_name "file" "txt"] = "/data/a/b/file.txt"
  /\ py_join "a/b" [spec_file_name "file" ""] = "a/b/file"
  /\ py_join "/data" ["a/b"; spec_file_name "file" ""] = "/data/a/b/file".
Proof.
  intros Hdoc Hmin Hj Hp Hn He.
  split; [|repeat split; reflexivity].
  unfold get_next_doc. rewrite Hdoc, Hmin. simpl.
  unfold make_doc. rewrite Hj. simpl. rewrite Hp, Hn, He. simpl.
  unfold ext_suffix, spec_file_name. simpl.
  destruct (String.eqb e "") eqn:E; simpl.
  - apply String.eqb_eq in E. subst e. simpl. now rewrite string_append_empty.
  - reflexivity.
Qed.

Lemma get_next_doc_paths_witness :
  get_next_doc sample_loads (sample_index [sample_row 1]) None
  = Ok (Some (mkDoc 1 1 100 10 (JObj [("path", JStr "a/b"); ("name", JStr "file");
                                      ("extension", JStr "txt")])
                "a/b/file.txt" "/data/a/b/file.txt",
              set_last_id (sample_index [sample_row 1]) (Some 1))).
Proof.
  exact (proj1 (get_next_doc_paths sample_loads (sample_index [sample_row 1]) None
                  [sample_row 1] (sample_row 1)
                  (JObj [("path", JStr "a/b"); ("name", JStr "file"); ("extension", JStr "txt")])
                  "a/b" "file" "txt" eq_refl eq_refl eq_refl eq_refl eq_refl eq_refl)).
Defined.

(** ** Opening an index *)

(** C4, as the spec states it: opening a file with an empty descriptor table
    fails with a [SchemaError].  The code raises [TypeError] there. *)
Lemma open_index_empty_descriptor_not_schema_error :
  open_index empty_descriptor_file = Err (PyExc "TypeError")
  /\ open_index empty_descriptor_file <> Err (PyExc "SchemaError").
Proof.
  split; [reflexivity|]. vm_compute. intros H. inversion H.
Qed.

(** C4, amended: an empty descriptor table makes the open raise [TypeError]
    (unpacking the [None] of [fetchone()]), an absent one raises
    [sqlite3.OperationalError]; with a descriptor row and an empty version
    table the open succeeds with an empty versions list. *)
Theorem open_index_outcomes (f : db) :
  (t_descriptor f = Some [] -> open_index f = Err (PyExc "TypeError"))
  /\ (t_descriptor f = None -> open_index f = Err (PyExc "OperationalError"))
  /\ (forall d ds, t_descriptor f = Some (d :: ds) -> t_version f = Some [] ->
      exists ix, open_index f = Ok ix /\ idx_descriptor ix = d /\ idx_versions ix = []).
Proof.
  unfold open_index, get_descriptor, get_versions.
  split; [|split]; intros H; [rewrite H; reflexivity|rewrite H; reflexivity|].
  intros ds Hd Hv. rewrite Hd, Hv. simpl. eexists; split; [reflexivity|]. now split.
Qed.

Lemma open_index_outcomes_witness :
  exists ix, open_index (mkDb (Some [sample_descriptor]) (Some []) (Some []) (Some []) None) = Ok ix
          /\ idx_descriptor ix = sample_descriptor /\ idx_versions ix = [].
Proof.
  exact (proj2 (proj2 (open_index_outcomes
           (mkDb (Some [sample_descriptor]) (Some []) (Some []) (Some []) None)))
           sample_descriptor [] eq_refl eq_refl).
Defined.

(** ** Updating a document *)

Lemma with_documents_same (d : db) (tbl : list doc_row) :
  t_document d = Some tbl -> with_documents d tbl = d.
Proof. destruct d; simpl; intros ->; reflexivity. Qed.

Lemma set_conn_same (ix : sist2_index) : set_conn ix (conn ix) = ix.
Proof. destruct ix; reflexivity. Qed.

Lemma classic_range (z : Z) : (- 2 ^ 63 <= z < 2 ^ 63) \/ ~ (- 2 ^ 63 <= z < 2 ^ 63).
Proof. lia. Qed.

Lemma bind_param_int_range (z : Z) :
  - 2 ^ 63 <= z < 2 ^ 63 -> bind_param (PyInt z) = Ok (SInt z).
Proof.
  intros [H1 H2]. unfold bind_param.
  rewrite (proj2 (Z.leb_le _ _) H1), (proj2 (Z.ltb_lt _ _) H2). reflexivity.
Qed.

Lemma bind_param_int_overflow (z : Z) :
  ~ (- 2 ^ 63 <= z < 2 ^ 63) -> bind_param (PyInt z) = Err (PyExc "OverflowError").
Proof.
  intros H. unfold bind_param.
  destruct (Z.leb (- 2 ^ 63) z && Z.ltb z (2 ^ 63)) eqn:E; [|reflexivity].
  apply andb_true_iff in E as [E1 E2]. apply Z.leb_le in E1. apply Z.ltb_lt in E2.
  exfalso. now apply H.
Qed.

(** C5, as stated: an id that no row has makes [update_document] match
    nothing and raise nothing.  With [doc.id = 2 ^ 63], absent from the
    table, binding the id raises [OverflowError]. *)
Lemma update_document_id_overflow :
  ~ In (2 ^ 63) (map r_id [sample_row 1; sample_row 2])
  /\ update_document (fun _ => "{}") (sample_index [sample_row 1; sample_row 2])
       (mkDoc (2 ^ 63) 1 5 5 JNull "" "")
     = Err (PyExc "OverflowError").
Proof.
  split; [simpl; intuition discriminate|reflexivity].
Qed.

(** C5, amended: when [doc.id], [doc.mtime] or [doc.size] lies outside the
    signed 64-bit range, [update_document] raises [OverflowError] and
    changes nothing.  Otherwise it raises nothing and changes only the
    documents table of the connection; there, the row of id [doc.id] gets
    [doc]'s mtime, size and re-serialized bag and keeps its id and version,
    every other row is kept; when no row has that id nothing changes at
    all. *)
Theorem update_document_frame (json_dumps : json -> string) (ix : sist2_index)
    (tbl : list doc_row) (doc : sist2_document) :
  t_document (conn ix) = Some tbl ->
  (~ (- 2 ^ 63 <= doc_id doc < 2 ^ 63) \/ ~ (- 2 ^ 63 <= doc_mtime doc < 2 ^ 63)
   \/ ~ (- 2 ^ 63 <= doc_size doc < 2 ^ 63) ->
   update_document json_dumps ix doc = Err (PyExc "OverflowError"))
  /\ (- 2 ^ 63 <= doc_id doc < 2 ^ 63 -> - 2 ^ 63 <= doc_mtime doc < 2 ^ 63 ->
      - 2 ^ 63 <= doc_size doc < 2 ^ 63 ->
  exists ix', update_document json_dumps ix doc = Ok ix'
  /\ file ix' = file ix /\ last_id ix' = last_id ix
  /\ idx_descriptor ix' = idx_descriptor ix /\ idx_versions ix' = idx_versions ix
  /\ t_descriptor (conn ix') = t_descriptor (conn ix)
  /\ t_version (conn ix') = t_version (conn ix)
  /\ t_tag (conn ix') = t_tag (conn ix)
  /\ t_kv (conn ix') = t_kv (conn ix)
  /\ (exists tbl', t_document (conn ix') = Some tbl'
      /\ List.length tbl' = List.length tbl
      /\ forall i r, nth_error tbl i = Some r ->
         nth_error tbl' i
         = Some (if Z.eqb (r_id r) (doc_id doc)
                 then mkRow (r_id r) (r_version r) (doc_mtime doc) (doc_size doc)
                            (json_dumps (doc_json_data doc))
                 else r))
  /\ (~ In (doc_id doc) (map r_id tbl) -> ix' = ix)).
Proof.
  intros Hdoc. unfold update_document. rewrite Hdoc. split.
  - intros Hout.
    destruct (classic_range (doc_mtime doc)) as [Hm|Hm];
      [rewrite (bind_param_int_range _ Hm)|now rewrite (bind_param_int_overflow _ Hm)].
    destruct (classic_range (doc_size doc)) as [Hs|Hs];
      [rewrite (bind_param_int_range _ Hs)|now rewrite (bind_param_int_overflow _ Hs)].
    destruct (classic_range (doc_id doc)) as [Hi|Hi];
      [|rewrite (bind_param_int_overflow _ Hi); reflexivity].
    exfalso. tauto.
  - intros Hi Hm Hs.
    rewrite (bind_param_int_range _ Hm), (bind_param_int_range _ Hs),
      (bind_param_int_range _ Hi). simpl.
    eexists; split; [reflexivity|]. simpl.
    repeat (split; [reflexivity|]). split.
    + eexists; split; [reflexivity|]. split; [apply length_map|].
      intros i r Hi'. rewrite nth_error_map, Hi'. reflexivity.
    + intros Hnin. rewrite map_ext_in with (g := fun r => r).
      * rewrite map_id, with_documents_same by exact Hdoc. apply set_conn_same.
      * intros r Hr. unfold update_row.
        destruct (Z.eqb (r_id r) (doc_id doc)) eqn:E; [|reflexivity].
        apply Z.eqb_eq in E. exfalso. apply Hnin. rewrite <- E. now apply in_map.
Qed.

Lemma update_document_frame_witness :
  update_document (fun _ => "{}") (sample_index [sample_row 1; sample_row 2])
    (mkDoc 7 1 5 5 JNull "" "")
  = Ok (sample_index [sample_row 1; sample_row 2]).
Proof.
  destruct (proj2 (update_document_frame (fun _ => "{}") (sample_index [sample_row 1; sample_row 2])
              [sample_row 1; sample_row 2] (mkDoc 7 1 5 5 JNull "" "") eq_refl)
              ltac:(simpl; lia) ltac:(simpl; lia) ltac:(simpl; lia))
    as [ix' [Hu Hrest]].
  rewrite Hu. f_equal. apply (proj2 (proj2 (proj2 (proj2 (proj2 (proj2 (proj2 (proj2 (proj2 Hrest))))))))).
  simpl. intuition discriminate.
Defined.

(** ** Rebuilding the tag table *)

Lemma tag_replace_fold (l acc : list tag_row) :
  NoDup acc ->
  NoDup (fold_left tag_replace l acc)
  /\ forall t, In t (fold_left tag_replace l acc) <-> In t acc \/ In t l.
Proof.
  revert acc. induction l as [|x l IH]; simpl; intros acc Hnd.
  - split; [exact Hnd|]. intros t; tauto.
  - assert (Hnd' : NoDup (tag_replace acc x)).
    { unfold tag_replace. apply NoDup_app; [apply NoDup_filter, Hnd| repeat constructor; auto|].
      intros y Hy [<-|[]]. apply filter_In in Hy as [_ Hy].
      destruct (tag_row_eq_dec x x); [discriminate|contradiction]. }
    destruct (IH _ Hnd') as [HndF HinF]. split; [exact HndF|].
    intros t. rewrite HinF. unfold tag_replace. rewrite in_app_iff, filter_In.
    destruct (tag_row_eq_dec t x) as [->|Hne]; simpl; intuition.
Qed.

Lemma forall2_in_left {A B} (R : A -> B -> Prop) xs ys x :
  Forall2 R xs ys -> In x xs -> exists y, In y ys /\ R x y.
Proof.
  induction 1 as [|a b xs ys Hab _ IH]; simpl; [tauto|].
  intros [<-|Hx]; [exists b; auto|]. destruct (IH Hx) as [y [Hy Hr]]. exists y; auto.
Qed.

Lemma forall2_in_right {A B} (R : A -> B -> Prop) xs ys y :
  Forall2 R xs ys -> In y ys -> exists x, In x xs /\ R x y.
Proof.
  induction 1 as [|a b xs ys Hab _ IH]; simpl; [tauto|].
  intros [<-|Hy]; [exists a; auto|]. destruct (IH Hy) as [x [Hx Hr]]. exists x; auto.
Qed.

(** What one document contributes when its bag's [tag] is an array. *)
Lemma doc_tag_rows_array (json_parse : string -> option json) (r : doc_row)
    (kvs : list (string * json)) (l : list json) :
  json_parse (r_json_data r) = Some (JObj kvs) ->
  find (fun kv => String.eqb (fst kv) "tag") kvs = Some ("tag", JArr l) ->
  doc_tag_rows json_parse r = Ok (map (fun e => mkTag (r_id r) (sql_of_json e)) l).
Proof.
  intros Hp Hf. unfold doc_tag_rows, json_tag. rewrite Hp, Hf. simpl.
  now rewrite map_map.
Qed.

(** C6: two calls of [sync_tag_table] in a row leave the same tag table
    and have the same outcome.  When the call succeeds the table, emptied
    first, holds no row twice and holds exactly the rows (document id,
    value) for every value [json_each] gives on the document's [tag]: for a
    [tag] array, one row (document id, element) per element. *)
Theorem sync_tag_table_idempotent (json_parse : string -> option json)
    (ix ix1 ix2 : sist2_index) (r1 r2 : result unit) :
  sync_tag_table json_parse ix = (ix1, r1) ->
  sync_tag_table json_parse ix1 = (ix2, r2) ->
  t_tag (conn ix2) = t_tag (conn ix1) /\ r2 = r1
  /\ (r1 = Ok tt ->
      exists docs tags,
        t_document (conn ix) = Some docs /\ t_tag (conn ix1) = Some tags
        /\ NoDup tags
        /\ forall t, In t tags <->
           exists r rows, In r docs /\ doc_tag_rows json_parse r = Ok rows /\ In t rows)
  /\ (forall r kvs l,
        json_parse (r_json_data r) = Some (JObj kvs) ->
        find (fun kv => String.eqb (fst kv) "tag") kvs = Some ("tag", JArr l) ->
        doc_tag_rows json_parse r = Ok (map (fun e => mkTag (r_id r) (sql_of_json e)) l)).
Proof.
  intros H1 H2. split; [|split; [|split]].
  3: { intros Hok. unfold sync_tag_table in H1.
       destruct (t_tag (conn ix)) as [old|]; [|inversion H1; subst; discriminate].
       destruct (t_document (conn ix)) as [docs|]; [|inversion H1; subst; discriminate].
       destruct (map_result (doc_tag_rows json_parse) docs) as [rowss|e] eqn:Hm;
         inversion H1; subst; [|discriminate].
       exists docs, (fold_left tag_replace (List.concat rowss) []).
       destruct (tag_replace_fold (List.concat rowss) [] (NoDup_nil _)) as [Hnd Hin].
       split; [reflexivity|split; [reflexivity|split; [exact Hnd|]]].
       apply map_result_forall2 in Hm.
       intros t. rewrite Hin, in_concat. split.
       - intros [[]|[rows [Hrows Ht]]].
         destruct (forall2_in_right _ _ _ _ Hm Hrows) as [r [Hr Hrr]].
         exists r, rows; auto.
       - intros [r [rows [Hr [Hrr Ht]]]]. right.
         destruct (forall2_in_left _ _ _ _ Hm Hr) as [rows' [Hrows' Hrr']].
         rewrite Hrr in Hrr'. injection Hrr' as <-. exists rows; auto. }
  3: { intros r kvs l. apply doc_tag_rows_array. }
  all: unfold sync_tag_table in H1, H2;
       destruct (t_tag (conn ix)) as [old|] eqn:Ht;
       [|inversion H1; subst; rewrite Ht in H2; inversion H2; subst; reflexivity];
       destruct (t_document (conn ix)) as [docs|] eqn:Hd;
       [destruct (map_result (doc_tag_rows json_parse) docs) eqn:Hm|];
       inversion H1; subst; simpl in H2; rewrite Hd in H2; try rewrite Hm in H2;
       inversion H2; subst; reflexivity.
Qed.

Lemma sync_tag_table_idempotent_witness :
  let ix := sample_index [mkRow 1 1 0 0 "a"; mkRow 2 1 0 0 "x"] in
  t_tag (conn (fst (sync_tag_table sample_tag_parse (fst (sync_tag_table sample_tag_parse ix)))))
  = t_tag (conn (fst (sync_tag_table sample_tag_parse ix)))
  /\ t_tag (conn (fst (sync_tag_table sample_tag_parse ix)))
     = Some [mkTag 1 (SText "a"); mkTag 1 (SText "x"); mkTag 2 (SText "x")].
Proof.
  intros ix. split; [|reflexivity].
  exact (proj1 (sync_tag_table_idempotent sample_tag_parse ix
           (fst (sync_tag_table sample_tag_parse ix))
           (fst (sync_tag_table sample_tag_parse (fst (sync_tag_table sample_tag_parse ix))))
           (snd (sync_tag_table sample_tag_parse ix))
           (snd (sync_tag_table sample_tag_parse (fst (sync_tag_table sample_tag_parse ix))))
           eq_refl eq_refl)).
Defined.

(** ** The key-value table *)

Lemma find_kv_key (kv : list kv_row) (key : string) (v : sqlval) :
  find (fun r => String.eqb (kv_key r) key)
    (filter (fun r => negb (String.eqb (kv_key r) key)) kv ++ [mkKv key v])
  = Some (mkKv key v).
Proof.
  induction kv as [|r kv IH]; simpl.
  - now rewrite String.eqb_refl.
  - destruct (String.eqb (kv_key r) key) eqn:E; simpl; [exact IH|].
    rewrite E. exact IH.
Qed.

Lemma setup_kv_present (f : db) (kv : list kv_row) :
  t_kv f = Some kv -> setup_kv f = f.
Proof. unfold setup_kv. now intros ->. Qed.

(** C8: [get] on a key with no row returns the default without error; after
    [set(k, v)] with a string [v] and [commit], [get(k, None)] returns [v],
    on the same index and on an index opened afresh on the committed file,
    whatever value [k] had before. *)
Theorem kv_get_set_commit (json_text : json -> string) (ix : sist2_index)
    (kv : list kv_row) (key v : string) (d : pyval) :
  t_kv (conn ix) = Some kv ->
  (find (fun r => String.eqb (kv_key r) key) kv = None -> kv_get json_text ix key d = Ok d)
  /\ exists ix1, kv_set ix key (PyStr v) = Ok ix1
     /\ kv_get json_text (commit ix1) key PyNone = Ok (PyStr v)
     /\ (forall ix2, open_index (file (commit ix1)) = Ok ix2 ->
         kv_get json_text ix2 key PyNone = Ok (PyStr v)).
Proof.
  intros Hkv. split.
  - intros Hf. unfold kv_get. now rewrite Hkv, Hf.
  - unfold kv_set. rewrite Hkv. simpl. eexists; split; [reflexivity|].
    split.
    + unfold kv_get. simpl. now rewrite find_kv_key.
    + intros ix2 Hopen. unfold open_index in Hopen. simpl in Hopen.
      destruct (get_descriptor _) as [desc|]; simpl in Hopen; [|discriminate].
      destruct (get_versions _) as [vers|]; simpl in Hopen; [|discriminate].
      injection Hopen as <-. unfold kv_get. simpl. now rewrite find_kv_key.
Qed.

Lemma kv_get_set_commit_witness :
  kv_get (fun _ => "") (commit (sample_index [])) "k" PyNone = Ok PyNone
  /\ kv_get (fun _ => "") (sample_index []) "missing-key" (PyStr "fallback") = Ok (PyStr "fallback")
  /\ (exists ix1, kv_set (sample_index []) "k" (PyStr "v") = Ok ix1
      /\ kv_get (fun _ => "") (commit ix1) "k" PyNone = Ok (PyStr "v")
      /\ (forall ix2, open_index (file (commit ix1)) = Ok ix2 ->
          kv_get (fun _ => "") ix2 "k" PyNone = Ok (PyStr "v"))).
Proof.
  split; [reflexivity|].
  split; [exact (proj1 (kv_get_set_commit (fun _ => "") (sample_index []) [] "missing-key" "v"
                          (PyStr "fallback") eq_refl) eq_refl)|].
  exact (proj2 (kv_get_set_commit (fun _ => "") (sample_index []) [] "k" "v" PyNone eq_refl)).
Defined.

(** C10, as stated: for every integer, [set] then [get] gives its decimal
    text.  For [2 ^ 63] the [set] raises [OverflowError] instead. *)
Lemma kv_set_int_overflow :
  match kv_set (sample_index []) "k" (PyInt (2 ^ 63)) with
  | Ok ix1 => kv_get (fun _ => "") ix1 "k" PyNone
  | Err e => Err e
  end = Err (PyExc "OverflowError")
  /\ Err (PyExc "OverflowError") <> Ok (PyStr (decimal (2 ^ 63))).
Proof. split; [reflexivity|discriminate]. Qed.

(** C10, amended: an integer in the signed 64-bit range is stored through
    the TEXT affinity of [kv.value], so [get] returns its decimal text, not
    an [int]; an integer outside that range makes [set] raise
    [OverflowError] and store nothing. *)
Theorem kv_set_int_as_text (json_text : json -> string) (ix : sist2_index)
    (kv : list kv_row) (key : string) (z : Z) :
  t_kv (conn ix) = Some kv ->
  (- 2 ^ 63 <= z < 2 ^ 63 ->
   exists ix1, kv_set ix key (PyInt z) = Ok ix1
   /\ kv_get json_text ix1 key PyNone = Ok (PyStr (decimal z))
   /\ kv_get json_text ix1 key PyNone <> Ok (PyInt z))
  /\ (~ (- 2 ^ 63 <= z < 2 ^ 63) -> kv_set ix key (PyInt z) = Err (PyExc "OverflowError")).
Proof.
  intros Hkv. unfold kv_set, bind_param. rewrite Hkv. split.
  - intros Hz. rewrite (proj2 (Z.leb_le _ _) (proj1 Hz)), (proj2 (Z.ltb_lt _ _) (proj2 Hz)).
    simpl. eexists; split; [reflexivity|].
    unfold kv_get. simpl. rewrite find_kv_key. simpl. split; [reflexivity|discriminate].
  - intros Hz. destruct (Z.leb (- 2 ^ 63) z && Z.ltb z (2 ^ 63)) eqn:E; [|reflexivity].
    apply andb_true_iff in E as [E1 E2].
    apply Z.leb_le in E1. apply Z.ltb_lt in E2. exfalso. now apply Hz.
Qed.

Lemma kv_set_int_as_text_witness :
  exists ix1, kv_set (sample_index []) "k" (PyInt (-42)) = Ok ix1
  /\ kv_get (fun _ => "") ix1 "k" PyNone = Ok (PyStr "-42")
  /\ kv_get (fun _ => "") ix1 "k" PyNone <> Ok (PyInt (-42)).
Proof.
  exact (proj1 (kv_set_int_as_text (fun _ => "") (sample_index []) [] "k" (-42) eq_refl)
           ltac:(lia)).
Defined.

(** ** [serialize_float_array] *)

Lemma pack_f_length (little : bool) (x : float) : List.length (pack_f little x) = 4%nat.
Proof. unfold pack_f, bytes_of_word. destruct little; reflexivity. Qed.

(** C7: [serialize_float_array] returns [4 * n] bytes for [n] floats, the
    [i]-th block of four being [struct.pack("f", x_i)]; for
    [[1.0, -2.5, 0.0]] it returns 12 bytes that decode, in the same byte
    order, to exactly [[1.0, -2.5, 0.0]]. *)
Theorem serialize_float_array_layout (little : bool) (xs : list float) :
  List.length (serialize_float_array little xs) = (4 * List.length xs)%nat
  /\ (forall i x, nth_error xs i = Some x ->
        firstn 4 (skipn (4 * i) (serialize_float_array little xs)) = pack_f little x)
  /\ List.length (serialize_float_array little [1.0; -2.5; 0.0]%float) = 12%nat
  /\ unpack_floats little (serialize_float_array little [1.0; -2.5; 0.0]%float)
     = [1.0; -2.5; 0.0]%float.
Proof.
  split; [|split; [|split]].
  - unfold serialize_float_array. induction xs as [|x xs IH]; simpl; [reflexivity|].
    rewrite length_app, pack_f_length, IH. lia.
  - unfold serialize_float_array. induction xs as [|x xs IH]; intros [|i] y Hi;
      simpl in Hi; try discriminate.
    + injection Hi as <-. simpl. pose proof (pack_f_length little x) as L.
      destruct (pack_f little x) as [|a [|b [|c [|e [|g l]]]]]; simpl in L; try lia.
      reflexivity.
    + pose proof (pack_f_length little x) as L.
      replace (4 * S i)%nat with (S (S (S (S (4 * i)))))%nat by lia.
      cbn [map List.concat].
      destruct (pack_f little x) as [|a [|b [|c [|e [|g l]]]]]; simpl in L; try lia.
      simpl. now apply IH.
  - destruct little; reflexivity.
  - destruct little; vm_compute; reflexivity.
Qed.

(** ** [print_progress] *)

Lemma string_append_assoc (a b c : string) :
  String.append (String.append a b) c = String.append a (String.append b c).
Proof. induction a; simpl; congruence. Qed.

Lemma string_append_length (a b : string) :
  String.length (String.append a b) = (String.length a + String.length b)%nat.
Proof. induction a; simpl; congruence. Qed.

Lemma has_newline_append (a b : string) :
  has_newline (String.append a b) = has_newline a || has_newline b.
Proof. induction a; simpl; [reflexivity|]. rewrite IHa. apply orb_assoc. Qed.

Lemma has_newline_uint (u : Decimal.uint) :
  has_newline (NilEmpty.string_of_uint u) = false.
Proof. induction u; simpl; auto. Qed.

Lemma has_newline_decimal (z : Z) : has_newline (decimal z) = false.
Proof.
  unfold decimal, NilZero.string_of_int, NilZero.string_of_uint.
  destruct (Z.to_int z) as [u|u]; destruct u; simpl; auto using has_newline_uint.
Qed.

Lemma has_newline_progress (d c : Z) (w : bool) :
  has_newline (String.append "$PROGRESS " (progress_json d c w)) = false.
Proof.
  unfold progress_json, json_key.
  repeat rewrite has_newline_append. rewrite !has_newline_decimal.
  destruct w; reflexivity.
Qed.

Lemma stdout_write_mode (o : stdout) (s : string) : out_mode (stdout_write o s) = out_mode o.
Proof.
  unfold stdout_write. destruct (out_mode o); simpl; try reflexivity.
  - destruct (has_newline s); reflexivity.
  - destruct (Nat.leb _ _); reflexivity.
Qed.

Lemma stdout_write_total (o : stdout) (s : string) :
  String.append (out_written (stdout_write o s)) (out_pending (stdout_write o s))
  = String.append (String.append (out_written o) (out_pending o)) s.
Proof.
  unfold stdout_write, flush.
  destruct (out_mode o); simpl;
    [|destruct (has_newline s)|destruct (Nat.leb _ _)]; simpl;
    rewrite ?string_append_empty, ?string_append_assoc; reflexivity.
Qed.

Lemma stdout_write_line_keep (o : stdout) (s : string) :
  out_mode o = LineBuffered -> has_newline s = false ->
  stdout_write o s = mkStdout LineBuffered (String.append (out_pending o) s) (out_written o).
Proof. intros Hm Hs. unfold stdout_write. rewrite Hm, Hs. reflexivity. Qed.

Lemma stdout_write_line_flush (o : stdout) (s : string) :
  out_mode o = LineBuffered -> has_newline s = true ->
  stdout_write o s
  = mkStdout LineBuffered "" (String.append (out_written o) (String.append (out_pending o) s)).
Proof. intros Hm Hs. unfold stdout_write, flush. rewrite Hm, Hs. reflexivity. Qed.

Lemma stdout_write_unbuffered (o : stdout) (s : string) :
  out_mode o = Unbuffered ->
  stdout_write o s
  = mkStdout Unbuffered "" (String.append (out_written o) (String.append (out_pending o) s)).
Proof. intros Hm. unfold stdout_write, flush. rewrite Hm. reflexivity. Qed.

Lemma stdout_write_block_keep (o : stdout) (s : string) (size : nat) :
  out_mode o = BlockBuffered size ->
  (String.length (out_pending o) + String.length s < size)%nat ->
  stdout_write o s
  = mkStdout (BlockBuffered size) (String.append (out_pending o) s) (out_written o).
Proof.
  intros Hm Hl. unfold stdout_write. rewrite Hm. cbn [out_pending].
  rewrite string_append_length, (proj2 (Nat.leb_gt _ _)) by lia. reflexivity.
Qed.

(** C9, as stated: every call is flushed at once.  With [sys.stdout]
    block buffered (its 8 KiB buffer, as when a supervisor reads a pipe),
    the line of [print_progress()] stays in the buffer: nothing is
    written out. *)
Lemma print_progress_not_flushed :
  snd (print_progress (mkStdout (BlockBuffered (8 * 1024)) "" "") None None None)
  = mkStdout (BlockBuffered (8 * 1024))
      (String.append "$PROGRESS " (String.append (progress_json 0 0 false) newline)) "".
Proof. vm_compute. reflexivity. Qed.

(** C9, amended: a call returns [None] and hands [sys.stdout] exactly one
    line, [$PROGRESS ] followed by [json.dumps] of
    [{"done": done, "count": count, "waiting": waiting}] and a newline, the
    omitted arguments being [0], [0] and [False]; it does not flush: the line
    is written out at once when stdout is line buffered or unbuffered, and
    stays in the buffer when stdout is block buffered and the buffer does
    not fill. *)
Theorem print_progress_output (o : stdout) (d c : Z) (w : bool) :
  let line := String.append "$PROGRESS " (String.append (progress_json d c w) newline) in
  let o' := snd (print_progress o (Some d) (Some c) (Some w)) in
  fst (print_progress o (Some d) (Some c) (Some w)) = PyNone
  /\ String.append (out_written o') (out_pending o')
     = String.append (String.append (out_written o) (out_pending o)) line
  /\ has_newline (String.append "$PROGRESS " (progress_json d c w)) = false
  /\ (out_mode o = LineBuffered \/ out_mode o = Unbuffered ->
      out_written o' = String.append (String.append (out_written o) (out_pending o)) line
      /\ out_pending o' = "")
  /\ (forall size, out_mode o = BlockBuffered size ->
      (String.length (out_pending o) + String.length line < size)%nat ->
      out_written o' = out_written o)
  /\ print_progress o None None None = print_progress o (Some 0) (Some 0) (Some false)
  /\ progress_json 0 0 false
     = String.append "{" (String.append (json_key "done") (String.append "0"
       (String.append ", " (String.append (json_key "count") (String.append "0"
       (String.append ", " (String.append (json_key "waiting") "false}"))))))).
Proof.
  intros line o'. subst line o'.
  set (s := String.append "$PROGRESS " (progress_json d c w)).
  change (print_progress o (Some d) (Some c) (Some w)) with (PyNone, py_print o s).
  cbn [fst snd].
  replace (String.append "$PROGRESS " (String.append (progress_json d c w) newline))
    with (String.append s newline) by apply string_append_assoc.
  assert (Hs : has_newline s = false) by apply has_newline_progress.
  split; [reflexivity|]. split.
  { unfold py_print. rewrite stdout_write_total, stdout_write_total.
    rewrite !string_append_assoc. reflexivity. }
  split; [exact Hs|]. split; [|split; [|split; reflexivity]].
  - intros [Hm|Hm]; unfold py_print.
    + rewrite (stdout_write_line_keep o s Hm Hs).
      rewrite stdout_write_line_flush by reflexivity. cbn [out_written out_pending].
      rewrite !string_append_assoc. split; reflexivity.
    + rewrite (stdout_write_unbuffered o s Hm).
      rewrite stdout_write_unbuffered by reflexivity. cbn [out_written out_pending].
      rewrite ?string_append_empty, !string_append_assoc. split; reflexivity.
  - intros size Hm Hlen. unfold py_print.
    rewrite !string_append_length in Hlen.
    rewrite (stdout_write_block_keep o s size Hm) by lia.
    rewrite stdout_write_block_keep with (size := size) by
      (cbn [out_pending out_mode]; rewrite ?string_append_length; first [reflexivity | lia]).
    reflexivity.
Qed.

Lemma print_progress_output_witness :
  out_written (snd (print_progress (mkStdout (BlockBuffered (8 * 1024)) "" "") (Some 1) (Some 2) (Some true)))
  = "".
Proof.
  exact (proj1 (proj2 (proj2 (proj2 (proj2 (print_progress_output
           (mkStdout (BlockBuffered (8 * 1024)) "" "") 1 2 true)))))
           (8 * 1024)%nat eq_refl ltac:(vm_compute; lia)).
Defined.

(* ================================================================== *)
(** * Further properties of the code *)

(** ** The version history *)

Definition ver_le (a b : version) : Prop := ver_id a <= ver_id b.

Lemma insert_version_perm (v : version) (l : list version) :
  Permutation (insert_version v l) (v :: l).
Proof.
  induction l as [|y l IH]; simpl; [reflexivity|].
  destruct (Z.leb (ver_id v) (ver_id y)); [reflexivity|].
  rewrite IH. apply perm_swap.
Qed.

Lemma insert_version_sorted (v : version) (l : list version) :
  StronglySorted ver_le l -> StronglySorted ver_le (insert_version v l).
Proof.
  induction 1 as [|y l Hl IH Hy]; simpl; [repeat constructor|].
  destruct (Z.leb (ver_id v) (ver_id y)) eqn:E.
  - apply Z.leb_le in E. constructor; [now constructor|].
    constructor; [exact E|]. eapply Forall_impl; [|exact Hy].
    unfold ver_le; intros; lia.
  - apply Z.leb_gt in E. constructor; [exact IH|].
    apply Forall_forall. intros x Hx.
    apply (Permutation_in _ (insert_version_perm v l)) in Hx.
    destruct Hx as [<-|Hx]; [unfold ver_le; lia|].
    exact (proj1 (Forall_forall _ _) Hy x Hx).
Qed.

(** [_get_versions] returns every row of [version], each once, in
    non-decreasing id order; without a [version] table it raises
    [sqlite3.OperationalError]. *)
Theorem get_versions_sorted (f : db) :
  (t_version f = None -> get_versions f = Err (PyExc "OperationalError"))
  /\ forall vs, t_version f = Some vs ->
     exists out, get_versions f = Ok out
     /\ StronglySorted ver_le out /\ Permutation out vs.
Proof.
  unfold get_versions. split; [intros ->; reflexivity|].
  intros vs ->. exists (sort_versions vs). split; [reflexivity|]. split.
  - induction vs; simpl; [constructor|]. now apply insert_version_sorted.
  - induction vs as [|v vs IH]; simpl; [reflexivity|].
    rewrite insert_version_perm. now apply perm_skip.
Qed.

(** ** Fetching the next document *)

Lemma min_row_some (l : list doc_row) (r : doc_row) :
  min_row l = Some r -> In r l /\ forall r', In r' l -> r_id r <= r_id r'.
Proof.
  revert r. induction l as [|x l IH]; simpl; intros r H; [discriminate|].
  destruct (min_row l) as [m|] eqn:Hm.
  - destruct (IH m eq_refl) as [Hin Hle].
    destruct (Z.leb (r_id x) (r_id m)) eqn:E; injection H as <-.
    + apply Z.leb_le in E. split; [now left|].
      intros r' [<-|Hr']; [lia|]. specialize (Hle r' Hr'). lia.
    + apply Z.leb_gt in E. split; [now right|].
      intros r' [<-|Hr']; [lia|]. now apply Hle.
  - injection H as <-. split; [now left|].
    destruct l as [|y l]; [intros r' [<-|[]]; lia|].
    simpl in Hm. destruct (min_row l); [|discriminate].
    destruct (Z.leb _ _); discriminate.
Qed.

Lemma min_row_none (l : list doc_row) : min_row l = None -> l = [].
Proof.
  destruct l as [|x l]; simpl; [reflexivity|].
  destruct (min_row l); [destruct (Z.leb _ _)|]; discriminate.
Qed.

(** The rows the query of [_get_next_doc] may return: those satisfying the
    caller's clause and, once the cursor is set, of id above it. *)
Lemma next_doc_cond_spec (last : option Z) (w : where_clause) (r : doc_row) :
  next_doc_cond last w r = true
  <-> (match last with Some l => l < r_id r | None => True end) /\ cond_of w r = true.
Proof.
  destruct last as [l|], w as [p|]; simpl;
    rewrite ?andb_true_iff, ?Z.ltb_lt; intuition.
Qed.

(** [_get_next_doc] is a seek on the current table: when it returns a
    document, that document comes from a row satisfying the clause, of id
    above the cursor when the cursor is set, and no such row has a smaller
    id; the cursor then moves to that id.  When it returns [None], no row
    of the current table qualifies. *)
Theorem get_next_doc_least (json_loads : string -> option json)
    (ix : sist2_index) (w : where_clause) (tbl : list doc_row) :
  t_document (conn ix) = Some tbl ->
  (forall d ix', get_next_doc json_loads ix w = Ok (Some (d, ix')) ->
   exists r, In r tbl
   /\ (match last_id ix with Some l => l < r_id r | None => True end)
   /\ cond_of w r = true
   /\ doc_id d = r_id r
   /\ (forall r', In r' tbl ->
       (match last_id ix with Some l => l < r_id r' | None => True end) ->
       cond_of w r' = true -> r_id r <= r_id r')
   /\ last_id ix' = Some (r_id r))
  /\ (get_next_doc json_loads ix w = Ok None ->
      forall r, In r tbl ->
      (match last_id ix with Some l => l < r_id r | None => True end) ->
      cond_of w r = false).
Proof.
  intros Hdoc. unfold get_next_doc. rewrite Hdoc. split.
  - intros d ix' H. destruct (min_row _) as [r|] eqn:Hm; [|discriminate].
    destruct (make_doc json_loads (root (idx_descriptor ix)) r) as [d0|] eqn:Hd;
      simpl in H; [|discriminate].
    injection H as <- <-.
    destruct (min_row_some _ _ Hm) as [Hin Hle].
    apply filter_In in Hin as [Hin Hc]. apply next_doc_cond_spec in Hc as [Hl Hc].
    exists r. repeat split; auto.
    + eapply make_doc_id; eauto.
    + intros r' Hr' Hl' Hc'. apply Hle, filter_In. split; [exact Hr'|].
      now apply next_doc_cond_spec.
  - intros H r Hr Hl. destruct (min_row _) as [m|] eqn:Hm.
    + destruct (make_doc _ _ m); discriminate.
    + apply min_row_none in Hm.
      destruct (cond_of w r) eqn:Hc; [|reflexivity].
      assert (In r (filter (next_doc_cond (last_id ix) w) tbl)) as Hin
        by (apply filter_In; split; [exact Hr|now apply next_doc_cond_spec]).
      rewrite Hm in Hin. destruct Hin.
Qed.

(** The errors of [_get_next_doc] on the row it fetched: a [json_data] that
    is not JSON raises [json.JSONDecodeError]; a bag without one of the keys
    [path], [name], [extension] raises [KeyError].  In both cases no
    document is returned and the cursor does not move. *)
Theorem get_next_doc_errors (json_loads : string -> option json)
    (ix : sist2_index) (w : where_clause) (tbl : list doc_row) (r : doc_row) :
  t_document (conn ix) = Some tbl ->
  min_row (filter (next_doc_cond (last_id ix) w) tbl) = Some r ->
  (json_loads (r_json_data r) = None ->
   get_next_doc json_loads ix w = Err (PyExc "JSONDecodeError"))
  /\ (forall kvs k, json_loads (r_json_data r) = Some (JObj kvs) ->
      In k ["path"; "name"; "extension"] ->
      find (fun kv => String.eqb (fst kv) k) kvs = None ->
      get_next_doc json_loads ix w = Err (PyExc "KeyError")).
Proof.
  intros Hdoc Hm. unfold get_next_doc. rewrite Hdoc, Hm. unfold make_doc. split.
  - intros Hj. rewrite Hj. reflexivity.
  - intros kvs k Hj Hk Hf. rewrite Hj. simpl. unfold py_getitem.
    destruct Hk as [<-|[<-|[<-|[]]]]; rewrite Hf; simpl; [reflexivity|..].
    + destruct (find (fun kv => String.eqb (fst kv) "path") kvs) as [[? ?]|]; reflexivity.
    + destruct (find (fun kv => String.eqb (fst kv) "path") kvs) as [[? ?]|]; simpl;
        [|reflexivity].
      destruct (find (fun kv => String.eqb (fst kv) "name") kvs) as [[? ?]|]; reflexivity.
Qed.

(** The [extension] of the bag is tested for truth, not for being a string:
    a false value ([null], [false], [0], [""], an empty list or object)
    adds no suffix, so both paths end in the bare [name]; a true value that
    is not a string makes ["." + extension] raise [TypeError]. *)
Theorem get_next_doc_extension (json_loads : string -> option json)
    (ix : sist2_index) (w : where_clause) (tbl : list doc_row) (r : doc_row)
    (j e : json) (p n : string) :
  t_document (conn ix) = Some tbl ->
  min_row (filter (next_doc_cond (last_id ix) w) tbl) = Some r ->
  json_loads (r_json_data r) = Some j ->
  py_getitem j "path" = Ok (JStr p) ->
  py_getitem j "name" = Ok (JStr n) ->
  py_getitem j "extension" = Ok e ->
  (py_truthy e = false ->
   get_next_doc json_loads ix w
   = Ok (Some (mkDoc (r_id r) (r_version r) (r_mtime r) (r_size r) j
                 (py_join p [n]) (py_join (root (idx_descriptor ix)) [p; n]),
               set_last_id ix (Some (r_id r)))))
  /\ (py_truthy e = true -> (forall s, e <> JStr s) ->
      get_next_doc json_loads ix w = Err (PyExc "TypeError")).
Proof.
  intros Hdoc Hm Hj Hp Hn He. unfold get_next_doc. rewrite Hdoc, Hm.
  unfold make_doc. rewrite Hj. simpl. rewrite Hp, Hn, He. simpl.
  unfold ext_suffix. split.
  - intros Ht. rewrite Ht. simpl. now rewrite string_append_empty.
  - intros Ht Hs. rewrite Ht. destruct e; simpl; try reflexivity.
    exfalso. now apply (Hs s).
Qed.

Lemma prefix_slash_head (c : ascii) (s s' : string) :
  String.prefix "/" (String c s) = String.prefix "/" (String c s').
Proof. destruct s, s'; reflexivity. Qed.

Lemma py_join_absolute (a b : string) :
  String.prefix "/" a = true -> String.prefix "/" (py_join a [b]) = true.
Proof.
  intros Ha. simpl. destruct (String.prefix "/" b) eqn:Hb; [exact Hb|].
  destruct a as [|c a]; [discriminate|].
  destruct (String.eqb (String c a) "");
    [|destruct (String.eqb _ "/")]; simpl String.append;
    rewrite prefix_slash_head with (s' := a); exact Ha.
Qed.

(** When the bag's [path] is absolute, [os.path.join] drops the root: the
    document's [path] is its [rel_path], whatever the descriptor's root. *)
Theorem get_next_doc_absolute_path (json_loads : string -> option json)
    (ix : sist2_index) (w : where_clause) (tbl : list doc_row) (r : doc_row)
    (j : json) (p n e : string) :
  t_document (conn ix) = Some tbl ->
  min_row (filter (next_doc_cond (last_id ix) w) tbl) = Some r ->
  json_loads (r_json_data r) = Some j ->
  py_getitem j "path" = Ok (JStr p) ->
  py_getitem j "name" = Ok (JStr n) ->
  py_getitem j "extension" = Ok (JStr e) ->
  String.prefix "/" p = true ->
  exists d ix', get_next_doc json_loads ix w = Ok (Some (d, ix'))
  /\ doc_path d = doc_rel_path d
  /\ String.prefix "/" (doc_path d) = true.
Proof.
  intros Hdoc Hm Hj Hp Hn He Habs. unfold get_next_doc. rewrite Hdoc, Hm.
  unfold make_doc. rewrite Hj. simpl. rewrite Hp, Hn, He. simpl.
  destruct (ext_suffix (JStr e)) as [suf|] eqn:Hs.
  2:{ exfalso. unfold ext_suffix in Hs. destruct (py_truthy (JStr e)); discriminate. }
  simpl. do 2 eexists. split; [reflexivity|]. simpl. rewrite Habs. split; [reflexivity|].
  now apply py_join_absolute.
Qed.

(** ** Draining [document_iter] with a clause *)

Lemma map_result_err {A B} (f : A -> result B) (xs : list A) (x : A) (e : exc) :
  In x xs -> f x = Err e -> exists e', map_result f xs = Err e'.
Proof.
  intros Hin Hx. destruct (map_result f xs) as [ys|e'] eqn:H; [|now exists e'].
  apply map_result_forall2 in H.
  destruct (forall2_in_left _ _ _ _ H Hin) as [y [_ Hy]]. congruence.
Qed.

(** For every clause, draining [document_iter] yields documents whose ids
    are strictly increasing and are exactly the ids of the rows the clause
    selects. *)
Theorem document_iter_filtered (json_loads : string -> option json)
    (ix : sist2_index) (tbl : list doc_row) (w : where_clause) docs :
  t_document (conn ix) = Some tbl ->
  NoDup (map r_id tbl) ->
  document_iter_all json_loads ix w = Some (Ok docs) ->
  StronglySorted Z.lt (map doc_id docs)
  /\ Permutation (map doc_id docs) (map r_id (filter (cond_of w) tbl)).
Proof.
  intros Hdoc Hnd H. rewrite (document_iter_all_scan json_loads ix tbl w Hdoc Hnd) in H.
  injection H as H. destruct (scan_ordered_ids _ _ _ _ _ Hnd H) as [Hs [Hp _]].
  now split.
Qed.

(** A single row the clause selects whose document cannot be built (bad
    JSON, a missing key, a wrong type) makes draining [document_iter] raise:
    the iteration never completes. *)
Theorem document_iter_bad_row (json_loads : string -> option json)
    (ix : sist2_index) (tbl : list doc_row) (w : where_clause) (r : doc_row) (e : exc) :
  t_document (conn ix) = Some tbl ->
  NoDup (map r_id tbl) ->
  In r tbl -> cond_of w r = true ->
  make_doc json_loads (root (idx_descriptor ix)) r = Err e ->
  exists e', document_iter_all json_loads ix w = Some (Err e').
Proof.
  intros Hdoc Hnd Hin Hc Hr.
  rewrite (document_iter_all_scan json_loads ix tbl w Hdoc Hnd). unfold scan_ordered.
  destruct (map_result_err (make_doc json_loads (root (idx_descriptor ix)))
              (sort_by_id (filter (cond_of w) tbl)) r e) as [e' He']; auto.
  - apply (Permutation_in _ (Permutation_sym (sort_by_id_perm _))).
    now apply filter_In.
  - exists e'. now rewrite He'.
Qed.

(** ** Updating documents *)

Lemma update_row_twice (json_dumps : json -> string) (doc : sist2_document) (r : doc_row) :
  update_row json_dumps doc (update_row json_dumps doc r) = update_row json_dumps doc r.
Proof.
  unfold update_row. destruct (Z.eqb (r_id r) (doc_id doc)) eqn:E; simpl; [|now rewrite E].
  now rewrite E.
Qed.

Lemma update_row_comm (json_dumps : json -> string) (d1 d2 : sist2_document) (r : doc_row) :
  doc_id d1 <> doc_id d2 ->
  update_row json_dumps d2 (update_row json_dumps d1 r)
  = update_row json_dumps d1 (update_row json_dumps d2 r).
Proof.
  intros Hne. unfold update_row.
  destruct (Z.eqb (r_id r) (doc_id d1)) eqn:E1, (Z.eqb (r_id r) (doc_id d2)) eqn:E2;
    simpl; rewrite ?E1, ?E2; try reflexivity.
  apply Z.eqb_eq in E1, E2. congruence.
Qed.

Lemma set_conn_twice (ix : sist2_index) (a b : db) :
  set_conn (set_conn ix a) b = set_conn ix b.
Proof. reflexivity. Qed.

Lemma with_documents_twice (d : db) (a b : list doc_row) :
  with_documents (with_documents d a) b = with_documents d b.
Proof. reflexivity. Qed.

Lemma update_document_eq (json_dumps : json -> string) (ix : sist2_index)
    (doc : sist2_document) :
  update_document json_dumps ix doc
  = match t_document (conn ix) with
    | None => Err no_such_table
    | Some tbl =>
        if doc_params_ok doc
        then Ok (set_conn ix (with_documents (conn ix) (map (update_row json_dumps doc) tbl)))
        else Err (PyExc "OverflowError")
    end.
Proof.
  unfold update_document, doc_params_ok, int64_ok.
  destruct (t_document (conn ix)) as [tbl|]; [|reflexivity].
  unfold bind_param.
  destruct (Z.leb (- 2 ^ 63) (doc_mtime doc) && Z.ltb (doc_mtime doc) (2 ^ 63));
    [|reflexivity]; cbn [bind andb].
  destruct (Z.leb (- 2 ^ 63) (doc_size doc) && Z.ltb (doc_size doc) (2 ^ 63));
    [|reflexivity]; cbn [bind andb].
  destruct (Z.leb (- 2 ^ 63) (doc_id doc) && Z.ltb (doc_id doc) (2 ^ 63)); reflexivity.
Qed.

(** Applying the same [update_document] twice is the same as once, and
    updates of two different ids commute. *)
Theorem update_document_idempotent_commute (json_dumps : json -> string)
    (ix : sist2_index) (d1 d2 : sist2_document) :
  bind (update_document json_dumps ix d1) (fun ix1 => update_document json_dumps ix1 d1)
  = update_document json_dumps ix d1
  /\ (doc_id d1 <> doc_id d2 ->
      bind (update_document json_dumps ix d1) (fun ix1 => update_document json_dumps ix1 d2)
      = bind (update_document json_dumps ix d2) (fun ix2 => update_document json_dumps ix2 d1)).
Proof.
  rewrite !update_document_eq.
  destruct (t_document (conn ix)) as [tbl|] eqn:Hdoc; [|split; reflexivity].
  split.
  - destruct (doc_params_ok d1) eqn:P1; cbn [bind]; [|reflexivity].
    rewrite update_document_eq. cbn [set_conn conn with_documents t_document]. rewrite P1.
    rewrite set_conn_twice, with_documents_twice, map_map.
    f_equal. f_equal. f_equal. apply map_ext. apply update_row_twice.
  - intros Hne.
    destruct (doc_params_ok d1) eqn:P1, (doc_params_ok d2) eqn:P2; cbn [bind];
      rewrite ?update_document_eq; cbn [set_conn conn with_documents t_document];
      rewrite ?P1, ?P2; try reflexivity.
    rewrite !set_conn_twice, !with_documents_twice, !map_map.
    f_equal. f_equal. f_equal. apply map_ext. intros r. now apply update_row_comm.
Qed.

Lemma make_doc_fields (json_loads : string -> option json) (root_path : string) r d :
  make_doc json_loads root_path r = Ok d ->
  doc_id d = r_id r /\ doc_version d = r_version r /\ doc_mtime d = r_mtime r
  /\ doc_size d = r_size r /\ json_loads (r_json_data r) = Some (doc_json_data d).
Proof.
  unfold make_doc. intros H.
  destruct (json_loads (r_json_data r)) as [j|] eqn:Hj; simpl in H; [|discriminate].
  bind_ok H. injection H as <-. simpl. repeat split; assumption.
Qed.

(** [update_document] followed by a full [document_iter]: when [json.loads]
    reads back what [json.dumps] wrote for the new bag, the iteration
    yields, for the updated id, a document with the new mtime, size and bag
    and the version the row had. *)
Theorem update_document_read_back (json_loads : string -> option json)
    (json_dumps : json -> string) (ix ix' : sist2_index) (tbl : list doc_row)
    (doc : sist2_document) (r : doc_row) :
  t_document (conn ix) = Some tbl ->
  NoDup (map r_id tbl) ->
  In r tbl -> r_id r = doc_id doc ->
  json_loads (json_dumps (doc_json_data doc)) = Some (doc_json_data doc) ->
  update_document json_dumps ix doc = Ok ix' ->
  forall docs, document_iter_all json_loads ix' None = Some (Ok docs) ->
  exists d, In d docs /\ doc_id d = doc_id doc /\ doc_version d = r_version r
  /\ doc_mtime d = doc_mtime doc /\ doc_size d = doc_size doc
  /\ doc_json_data d = doc_json_data doc.
Proof.
  intros Hdoc Hnd Hin Hid Hrt Hu docs Hit.
  rewrite update_document_eq, Hdoc in Hu.
  destruct (doc_params_ok doc); [injection Hu as <-|discriminate].
  set (tbl' := map (update_row json_dumps doc) tbl) in *.
  assert (Hids : map r_id tbl' = map r_id tbl).
  { subst tbl'. rewrite map_map. apply map_ext. intros x. unfold update_row.
    destruct (Z.eqb _ _); reflexivity. }
  rewrite (document_iter_all_scan json_loads (set_conn ix (with_documents (conn ix) tbl')) tbl' None eq_refl) in Hit
    by (rewrite Hids; exact Hnd).
  injection Hit as Hit. unfold scan_ordered in Hit. apply map_result_forall2 in Hit.
  assert (Hin' : In (update_row json_dumps doc r) (sort_by_id (filter (cond_of None) tbl'))).
  { apply (Permutation_in _ (Permutation_sym (sort_by_id_perm _))). simpl.
    rewrite filter_all_true. now apply in_map. }
  destruct (forall2_in_left _ _ _ _ Hit Hin') as [d [Hd Hmk]].
  apply make_doc_fields in Hmk as (H1 & H2 & H3 & H4 & H5).
  unfold update_row in *. rewrite Hid, Z.eqb_refl in *. simpl in *.
  exists d. rewrite Hrt in H5. injection H5 as H5.
  repeat split; congruence.
Qed.

(** ** Rebuilding the tag table: failures *)

(** When one document's [json_data] is not JSON, [sync_tag_table] raises
    after its [DELETE FROM tag] took effect: the connection is left with an
    empty tag table (which a later [commit] writes), the other tables as
    they were. *)
Theorem sync_tag_table_malformed (json_parse : string -> option json)
    (ix : sist2_index) (docs : list doc_row) (tags : list tag_row) (r : doc_row) :
  t_tag (conn ix) = Some tags ->
  t_document (conn ix) = Some docs ->
  In r docs -> json_parse (r_json_data r) = None ->
  exists e, sync_tag_table json_parse ix = (set_conn ix (with_tags (conn ix) []), Err e).
Proof.
  intros Htag Hdoc Hin Hj. unfold sync_tag_table. rewrite Htag, Hdoc.
  destruct (map_result_err (doc_tag_rows json_parse) docs r malformed_json Hin) as [e He].
  - unfold doc_tag_rows, json_tag. now rewrite Hj.
  - exists e. now rewrite He.
Qed.

(** What [json_each(json_data ->> 'tag')] gives for one document: no row
    when the bag has no [tag] or a [null] one, one row for a number, and an
    error for a string that is not itself JSON text (the text of [->>] is
    parsed again by [json_each]). *)
Theorem doc_tag_rows_edges (json_parse : string -> option json) (r : doc_row)
    (kvs : list (string * json)) :
  json_parse (r_json_data r) = Some (JObj kvs) ->
  (find (fun kv => String.eqb (fst kv) "tag") kvs = None -> doc_tag_rows json_parse r = Ok [])
  /\ (forall k, find (fun kv => String.eqb (fst kv) "tag") kvs = Some (k, JNull) ->
      doc_tag_rows json_parse r = Ok [])
  /\ (forall k z, find (fun kv => String.eqb (fst kv) "tag") kvs = Some (k, JNum z) ->
      doc_tag_rows json_parse r = Ok [mkTag (r_id r) (SInt z)])
  /\ (forall k s, find (fun kv => String.eqb (fst kv) "tag") kvs = Some (k, JStr s) ->
      json_parse s = None -> doc_tag_rows json_parse r = Err malformed_json).
Proof.
  intros Hj. unfold doc_tag_rows, json_tag. rewrite Hj.
  repeat split; intros *; intros Hf; rewrite Hf; simpl; try reflexivity.
  intros Hs. now rewrite Hs.
Qed.

(** ** The key-value table: more properties *)

(** [set] on one key leaves [get] of every other key as it was. *)
Theorem kv_set_other_key (json_text : json -> string) (ix ix1 : sist2_index)
    (key key' : string) (v d : pyval) :
  key' <> key -> kv_set ix key v = Ok ix1 ->
  kv_get json_text ix1 key' d = kv_get json_text ix key' d.
Proof.
  intros Hne Hs. unfold kv_set in Hs. destruct (t_kv (conn ix)) as [kv|] eqn:Hkv;
    [|discriminate].
  destruct (bind_param v) as [sv|]; simpl in Hs; [|discriminate]. injection Hs as <-.
  unfold kv_get. simpl. rewrite Hkv.
  match goal with |- match ?a with _ => _ end = match ?b with _ => _ end =>
    replace a with b; [reflexivity|] end.
  assert (Hk : String.eqb key key' = false) by (apply String.eqb_neq; congruence).
  clear Hkv. induction kv as [|x kv IH]; simpl.
  - now rewrite Hk.
  - destruct (String.eqb (kv_key x) key) eqn:E; simpl.
    + apply String.eqb_eq in E. rewrite E, Hk. apply IH.
    + destruct (String.eqb (kv_key x) key') eqn:E'; [reflexivity|]. apply IH.
Qed.

Lemma filter_twice {A} (p : A -> bool) (l : list A) : filter p (filter p l) = filter p l.
Proof.
  induction l as [|x l IH]; simpl; [reflexivity|].
  destruct (p x) eqn:E; simpl; rewrite ?E; congruence.
Qed.

(** A second [set] of the same key replaces the first completely: the
    table is as if only the second had run (so a repeated [set] changes
    nothing). *)
Theorem kv_set_overwrite (ix ix1 : sist2_index) (key : string) (v1 v2 : pyval) :
  kv_set ix key v1 = Ok ix1 -> kv_set ix1 key v2 = kv_set ix key v2.
Proof.
  intros Hs. unfold kv_set in *. destruct (t_kv (conn ix)) as [kv|] eqn:Hkv;
    [|discriminate].
  destruct (bind_param v1) as [sv1|]; simpl in Hs; [|discriminate]. injection Hs as <-.
  simpl. destruct (bind_param v2) as [sv2|]; simpl; [|reflexivity].
  rewrite filter_app. simpl. rewrite String.eqb_refl. simpl. rewrite app_nil_r.
  rewrite filter_twice. reflexivity.
Qed.

(** [set] writes to the connection only: the file is unchanged until
    [commit] (an index opened on it meanwhile sees the old contents), while
    [get] on the same index already returns the stored value. *)
Theorem kv_set_uncommitted (json_text : json -> string) (ix ix1 : sist2_index)
    (key : string) (v d : pyval) :
  kv_set ix key v = Ok ix1 ->
  file ix1 = file ix
  /\ exists sv, bind_param v = Ok sv
     /\ kv_get json_text ix1 key d = Ok (py_of_sql json_text (text_affinity sv))
     /\ kv_get json_text (commit ix1) key d = Ok (py_of_sql json_text (text_affinity sv)).
Proof.
  intros Hs. unfold kv_set in Hs. destruct (t_kv (conn ix)) as [kv|] eqn:Hkv;
    [|discriminate].
  destruct (bind_param v) as [sv|]; simpl in Hs; [|discriminate]. injection Hs as <-.
  split; [reflexivity|]. exists sv. split; [reflexivity|].
  unfold kv_get. simpl. rewrite find_kv_key. split; reflexivity.
Qed.

(** [get] tells a stored [NULL] from a missing key: after [set(k, None)],
    [get(k, default)] returns [None], not [default] (the fetched row is a
    one-element tuple, which is true); [bytes] come back as the same
    [bytes] (a BLOB is stored as is under TEXT affinity). *)
Theorem kv_set_none_bytes (json_text : json -> string) (ix : sist2_index)
    (kv : list kv_row) (key : string) (d : pyval) (bs : list Z) :
  t_kv (conn ix) = Some kv ->
  (exists ix1, kv_set ix key PyNone = Ok ix1 /\ kv_get json_text ix1 key d = Ok PyNone)
  /\ (exists ix1, kv_set ix key (PyBytes bs) = Ok ix1
      /\ kv_get json_text ix1 key d = Ok (PyBytes bs)).
Proof.
  intros Hkv. unfold kv_set. rewrite Hkv. simpl.
  split; eexists; (split; [reflexivity|]); unfold kv_get; simpl;
    rewrite find_kv_key; reflexivity.
Qed.

(** ** Concrete instances of the further properties *)

Lemma get_versions_sorted_witness :
  exists out, get_versions sample_versions_db = Ok out
  /\ StronglySorted ver_le out /\ Permutation out [mkVersion 2 200; mkVersion 1 100].
Proof. exact (proj2 (get_versions_sorted sample_versions_db) _ eq_refl). Defined.

Lemma get_next_doc_least_witness :
  exists d ix',
  get_next_doc sample_loads (set_last_id (sample_index [sample_row 3; sample_row 1; sample_row 2]) (Some 1)) None
  = Ok (Some (d, ix'))
  /\ last_id ix' = Some 2.
Proof.
  destruct (get_next_doc sample_loads
              (set_last_id (sample_index [sample_row 3; sample_row 1; sample_row 2]) (Some 1)) None)
    as [[[d ix']|]|e] eqn:H; [|vm_compute in H; discriminate..].
  exists d, ix'. split; [reflexivity|].
  destruct (proj1 (get_next_doc_least sample_loads
              (set_last_id (sample_index [sample_row 3; sample_row 1; sample_row 2]) (Some 1))
              None [sample_row 3; sample_row 1; sample_row 2] eq_refl) d ix' H)
    as [r (Hin & Hl & _ & _ & Hle & Hlast)].
  rewrite Hlast. f_equal.
  specialize (Hle (sample_row 2) (or_intror (or_intror (or_introl eq_refl)))).
  simpl in Hl, Hle. specialize (Hle ltac:(lia) eq_refl).
  destruct Hin as [<-|[<-|[<-|[]]]]; simpl in *; lia.
Defined.

Lemma get_next_doc_errors_witness :
  get_next_doc (fun _ => None) (sample_index [sample_row 1]) None
  = Err (PyExc "JSONDecodeError").
Proof.
  exact (proj1 (get_next_doc_errors (fun _ => None) (sample_index [sample_row 1]) None
                  [sample_row 1] (sample_row 1) eq_refl eq_refl) eq_refl).
Defined.

Lemma get_next_doc_extension_witness :
  get_next_doc sample_loads_noext (sample_index [sample_row 1]) None
  = Ok (Some (mkDoc 1 1 100 10
                (JObj [("path", JStr "a/b"); ("name", JStr "README"); ("extension", JNull)])
                (py_join "a/b" ["README"]) (py_join "/data" ["a/b"; "README"]),
              set_last_id (sample_index [sample_row 1]) (Some 1))).
Proof.
  exact (proj1 (get_next_doc_extension sample_loads_noext (sample_index [sample_row 1]) None
                  [sample_row 1] (sample_row 1)
                  (JObj [("path", JStr "a/b"); ("name", JStr "README"); ("extension", JNull)])
                  JNull "a/b" "README" eq_refl eq_refl eq_refl eq_refl eq_refl eq_refl) eq_refl).
Defined.

Lemma get_next_doc_absolute_path_witness :
  exists d ix', get_next_doc sample_loads (sample_index [mkRow 1 1 0 0 "/srv"]) None
                = Ok (Some (d, ix'))
  /\ doc_path d = doc_rel_path d /\ String.prefix "/" (doc_path d) = true.
Proof.
  exact (get_next_doc_absolute_path sample_loads (sample_index [mkRow 1 1 0 0 "/srv"]) None
           [mkRow 1 1 0 0 "/srv"] (mkRow 1 1 0 0 "/srv")
           (JObj [("path", JStr "/srv"); ("name", JStr "file"); ("extension", JStr "txt")])
           "/srv" "file" "txt" eq_refl eq_refl eq_refl eq_refl eq_refl eq_refl eq_refl).
Defined.

Lemma document_iter_filtered_witness :
  StronglySorted Z.lt [2; 3]
  /\ Permutation [2; 3]
       (map r_id (filter (cond_of (Some (fun r => Z.ltb 15 (r_size r))))
                    [sample_row 3; sample_row 1; sample_row 2])).
Proof.
  assert (Hnd : NoDup (map r_id [sample_row 3; sample_row 1; sample_row 2])).
  { simpl. repeat constructor; simpl; intuition discriminate. }
  exact (document_iter_filtered sample_loads
           (sample_index [sample_row 3; sample_row 1; sample_row 2])
           [sample_row 3; sample_row 1; sample_row 2] (Some (fun r => Z.ltb 15 (r_size r)))
           [mkDoc 2 1 100 20 (JObj [("path", JStr "a/b"); ("name", JStr "file");
                                   ("extension", JStr "txt")]) "a/b/file.txt" "/data/a/b/file.txt";
            mkDoc 3 1 100 30 (JObj [("path", JStr "a/b"); ("name", JStr "file");
                                   ("extension", JStr "txt")]) "a/b/file.txt" "/data/a/b/file.txt"]
           eq_refl Hnd ltac:(vm_compute; reflexivity)).
Defined.

Lemma document_iter_bad_row_witness :
  exists e', document_iter_all sample_loads_bad (sample_index [sample_row 1; mkRow 2 1 0 0 "bad"]) None
             = Some (Err e').
Proof.
  assert (Hnd : NoDup (map r_id [sample_row 1; mkRow 2 1 0 0 "bad"])).
  { simpl. repeat constructor; simpl; intuition discriminate. }
  exact (document_iter_bad_row sample_loads_bad (sample_index [sample_row 1; mkRow 2 1 0 0 "bad"])
           [sample_row 1; mkRow 2 1 0 0 "bad"] None (mkRow 2 1 0 0 "bad")
           (PyExc "JSONDecodeError") eq_refl Hnd
           (or_intror (or_introl eq_refl)) eq_refl eq_refl).
Defined.

Lemma update_document_idempotent_commute_witness :
  bind (update_document (fun _ => "{}") (sample_index [sample_row 1; sample_row 2])
          (mkDoc 1 1 5 5 JNull "" ""))
       (fun ix1 => update_document (fun _ => "{}") ix1 (mkDoc 2 1 6 6 JNull "" ""))
  = bind (update_document (fun _ => "{}") (sample_index [sample_row 1; sample_row 2])
            (mkDoc 2 1 6 6 JNull "" ""))
         (fun ix2 => update_document (fun _ => "{}") ix2 (mkDoc 1 1 5 5 JNull "" "")).
Proof.
  exact (proj2 (update_document_idempotent_commute (fun _ => "{}")
                  (sample_index [sample_row 1; sample_row 2])
                  (mkDoc 1 1 5 5 JNull "" "") (mkDoc 2 1 6 6 JNull "" "")) ltac:(discriminate)).
Defined.

Lemma update_document_read_back_witness :
  exists docs d,
  document_iter_all sample_loads
    (set_conn (sample_index [sample_row 1; sample_row 2])
       (with_documents (conn (sample_index [sample_row 1; sample_row 2]))
          (map (update_row (fun _ => "c/d") (mkDoc 1 0 7 70 sample_bag_cd "" ""))
             [sample_row 1; sample_row 2]))) None = Some (Ok docs)
  /\ In d docs /\ doc_id d = 1 /\ doc_version d = 1
  /\ doc_mtime d = 7 /\ doc_size d = 70 /\ doc_json_data d = sample_bag_cd.
Proof.
  assert (Hnd : NoDup (map r_id [sample_row 1; sample_row 2])).
  { simpl. repeat constructor; simpl; intuition discriminate. }
  destruct (document_iter_all sample_loads
    (set_conn (sample_index [sample_row 1; sample_row 2])
       (with_documents (conn (sample_index [sample_row 1; sample_row 2]))
          (map (update_row (fun _ => "c/d") (mkDoc 1 0 7 70 sample_bag_cd "" ""))
             [sample_row 1; sample_row 2]))) None) as [[docs|e]|] eqn:H;
    [|vm_compute in H; discriminate..].
  exists docs.
  destruct (update_document_read_back sample_loads (fun _ => "c/d")
           (sample_index [sample_row 1; sample_row 2]) _ [sample_row 1; sample_row 2]
           (mkDoc 1 0 7 70 sample_bag_cd "" "") (sample_row 1)
           eq_refl Hnd (or_introl eq_refl) eq_refl eq_refl eq_refl docs H) as [d Hd].
  exists d. split; [reflexivity|exact Hd].
Defined.

Lemma sync_tag_table_malformed_witness :
  exists e, sync_tag_table sample_bad_tag_parse (sample_index [sample_row 1; mkRow 2 1 0 0 "bad"])
  = (set_conn (sample_index [sample_row 1; mkRow 2 1 0 0 "bad"])
       (with_tags (conn (sample_index [sample_row 1; mkRow 2 1 0 0 "bad"])) []), Err e).
Proof.
  exact (sync_tag_table_malformed sample_bad_tag_parse
           (sample_index [sample_row 1; mkRow 2 1 0 0 "bad"])
           [sample_row 1; mkRow 2 1 0 0 "bad"] [] (mkRow 2 1 0 0 "bad")
           eq_refl eq_refl (or_intror (or_introl eq_refl)) eq_refl).
Defined.

Lemma doc_tag_rows_edges_witness :
  doc_tag_rows sample_string_tag_parse (sample_row 1) = Err malformed_json.
Proof.
  exact (proj2 (proj2 (proj2 (doc_tag_rows_edges sample_string_tag_parse (sample_row 1)
           [("tag", JStr "foo")] eq_refl))) "tag" "foo" eq_refl eq_refl).
Defined.

Lemma kv_set_other_key_witness :
  exists ix1, kv_set (sample_index []) "a" (PyStr "1") = Ok ix1
  /\ kv_get (fun _ => "") ix1 "b" (PyStr "d") = Ok (PyStr "d").
Proof.
  eexists; split; [reflexivity|].
  rewrite (kv_set_other_key (fun _ => "") (sample_index []) _ "a" "b" (PyStr "1") (PyStr "d")
             ltac:(discriminate) eq_refl).
  reflexivity.
Defined.

Lemma kv_set_overwrite_witness :
  exists ix1, kv_set (sample_index []) "k" (PyStr "1") = Ok ix1
  /\ kv_set ix1 "k" (PyInt 2) = kv_set (sample_index []) "k" (PyInt 2).
Proof.
  eexists; split; [reflexivity|].
  exact (kv_set_overwrite (sample_index []) _ "k" (PyStr "1") (PyInt 2) eq_refl).
Defined.

Lemma kv_set_uncommitted_witness :
  exists ix1, kv_set (sample_index []) "k" (PyStr "v") = Ok ix1
  /\ file ix1 = sample_db [] /\ kv_get (fun _ => "") ix1 "k" PyNone = Ok (PyStr "v").
Proof.
  eexists; split; [reflexivity|].
  destruct (kv_set_uncommitted (fun _ => "") (sample_index []) _ "k" (PyStr "v") PyNone eq_refl)
    as [Hf [sv [Hb [Hg _]]]].
  split; [exact Hf|]. rewrite Hg. injection Hb as <-. reflexivity.
Defined.

Lemma kv_set_none_bytes_witness :
  (exists ix1, kv_set (sample_index []) "k" PyNone = Ok ix1
   /\ kv_get (fun _ => "") ix1 "k" (PyStr "d") = Ok PyNone)
  /\ (exists ix1, kv_set (sample_index []) "k" (PyBytes [0; 255]) = Ok ix1
      /\ kv_get (fun _ => "") ix1 "k" (PyStr "d") = Ok (PyBytes [0; 255])).
Proof.
  exact (kv_set_none_bytes (fun _ => "") (sample_index []) [] "k" (PyStr "d") [0; 255] eq_refl).
Defined.
